(** * Media Mirror dashboard: a shallow embedding of [dashboard/server.py]

    The development follows the source file function by function.  Python
    values are a small inductive type, dictionaries are association lists
    in insertion order, and every function that touches the outside world
    is a computation in a state-and-exception monad over a [World].

    What the model takes from the platform (Linux, CPython, UTF-8 as the
    encoding of text files and of the output of commands):
    - a [str] is a Rocq [string], one character per code point; the
      characters of the model are the code points below U+0100, and
      whitespace is what [str.strip], [str.split] and [int] take as
      whitespace among them;
    - a file opened in text mode is decoded, and [CR LF] and [CR] are
      read as [LF]; what is written is stored as it is;
    - a [float] is an IEEE 754 binary64 number ([spec_float] of the
      standard library, with its operations); conversions from [int] and
      the two forms of [round] are correctly rounded, as CPython does;
    - the JSON codec, [datetime.fromisoformat], [urllib.parse.unquote],
      [sum] over floats and [str] of a value are library functions, taken
      as the operations of the classes [PyLib] and [PyText], so that every
      statement holds for whatever they return;
    - a path holds no file, a file that cannot be opened or read, a file
      whose bytes do not decode, or a file with a text; whether a path
      can be opened for writing, and whether it can be removed, is said
      by the world;
    - the process table maps the process ids of the other processes to
      their owner, group and command line; the server knows its own id
      and group; [os.kill] follows kill(2) for a process, a group and
      every process, and a [SIGKILL] that reaches the server ends it;
    - an external command may fail to run (the world says for which
      command lines); [tail] reads the files of the model, [pkill] acts
      on its process table with the selection of the world, and what
      [df] and [ssh] print and do to the files is given by the world;
    - nothing else changes files or processes while a request is handled,
      the response can be sent, and the disk takes what is written. *)

From Stdlib Require Import ZArith Ascii String List Bool Lia SpecFloat.
From stdpp Require Import base option list gmap strings infinite.

Local Open Scope Z_scope.

(** ** Characters and strings as Python sees them *)

Definition nl : ascii := "010"%char.
Definition cr : ascii := "013"%char.
Definition nul : ascii := "000"%char.
Definition dquote : ascii := "034"%char.
Definition squote : ascii := "039"%char.

Definition str1 (c : ascii) : string := String c EmptyString.

(** [str.isspace] on a character below U+0100: TAB..CR, FS..US, the
    blank, NEL (U+0085) and the no-break space (U+00A0). *)
Definition is_space (c : ascii) : bool :=
  let n := nat_of_ascii c in
  ((9 <=? n)%nat && (n <=? 13)%nat) || ((28 <=? n)%nat && (n <=? 32)%nat)
  || (n =? 133)%nat || (n =? 160)%nat.

(** The whitespace that [int] skips at both ends of its argument: the
    whitespace of C among the ASCII characters (not FS..US), and the
    Unicode whitespace above them. *)
Definition is_int_space (c : ascii) : bool :=
  let n := nat_of_ascii c in
  ((9 <=? n)%nat && (n <=? 13)%nat) || (n =? 32)%nat
  || (n =? 133)%nat || (n =? 160)%nat.

Definition is_digit (c : ascii) : bool :=
  let n := nat_of_ascii c in (48 <=? n)%nat && (n <=? 57)%nat.

Definition digit_value (c : ascii) : Z := Z.of_nat (nat_of_ascii c) - 48.

Definition is_empty (s : string) : bool :=
  match s with EmptyString => true | String _ _ => false end.

(** [c in chars] for a one-character [c]. *)
Fixpoint char_in (c : ascii) (chars : string) : bool :=
  match chars with
  | EmptyString => false
  | String d r => Ascii.eqb c d || char_in c r
  end.

(** [s.lstrip(chars)] and [s.rstrip(chars)], the set given as a predicate. *)
Fixpoint lstrip_with (drop : ascii -> bool) (s : string) : string :=
  match s with
  | EmptyString => EmptyString
  | String c r => if drop c then lstrip_with drop r else s
  end.

Fixpoint rstrip_with (drop : ascii -> bool) (s : string) : string :=
  match s with
  | EmptyString => EmptyString
  | String c r =>
      let r' := rstrip_with drop r in
      if drop c && is_empty r' then EmptyString else String c r'
  end.

Definition strip_with (drop : ascii -> bool) (s : string) : string :=
  rstrip_with drop (lstrip_with drop s).

(** [s.strip()] *)
Definition py_strip (s : string) : string := strip_with is_space s.

(** [s.strip(chars)] *)
Definition py_strip_chars (chars : string) (s : string) : string :=
  strip_with (fun c => char_in c chars) s.

(** [s.startswith(p)] *)
Fixpoint startswith (p s : string) : bool :=
  match p, s with
  | EmptyString, _ => true
  | String a p', String b s' => Ascii.eqb a b && startswith p' s'
  | String _ _, EmptyString => false
  end.

(** [s.partition(c)] for a one-character separator: the text before the
    first [c], whether [c] was found, and the text after it. *)
Fixpoint partition (c : ascii) (s : string) : string * bool * string :=
  match s with
  | EmptyString => (EmptyString, false, EmptyString)
  | String d r =>
      if Ascii.eqb d c then (EmptyString, true, r)
      else let '(b, f, a) := partition c r in (String d b, f, a)
  end.

(** [s.split(c, 1)] *)
Definition split_once (c : ascii) (s : string) : list string :=
  let '(b, f, a) := partition c s in if f then [b; a] else [b].

(** [s.split(c)] for a one-character separator. *)
Fixpoint split_on (c : ascii) (s : string) : list string :=
  match s with
  | EmptyString => [EmptyString]
  | String d r =>
      if Ascii.eqb d c then EmptyString :: split_on c r
      else match split_on c r with
           | [] => [str1 d]
           | w :: ws => String d w :: ws
           end
  end.

(** [s.split()]: runs of whitespace separate the words, no empty word. *)
Fixpoint split_ws_aux (cur : string) (s : string) : list string :=
  match s with
  | EmptyString => if is_empty cur then [] else [cur]
  | String d r =>
      if is_space d
      then (if is_empty cur then split_ws_aux EmptyString r
            else cur :: split_ws_aux EmptyString r)
      else split_ws_aux (cur +:+ str1 d) r
  end.

Definition split_ws (s : string) : list string := split_ws_aux EmptyString s.

(** The translation of line ends that reading in text mode applies:
    [CR LF] and a [CR] on its own both become [LF]. *)
Fixpoint universal_newlines (s : string) : string :=
  match s with
  | EmptyString => EmptyString
  | String c r =>
      if Ascii.eqb c cr then
        match r with
        | String d r' =>
            if Ascii.eqb d nl then String nl (universal_newlines r')
            else String nl (universal_newlines r)
        | EmptyString => str1 nl
        end
      else String c (universal_newlines r)
  end.

(** The lines of a text, each with its terminating [LF] when it has one:
    [f.readlines()] and iteration over a file on the text that text mode
    hands out, and the lines that [tail] counts in the bytes of a file. *)
Fixpoint readlines (s : string) : list string :=
  match s with
  | EmptyString => []
  | String c r =>
      if Ascii.eqb c nl then str1 c :: readlines r
      else match readlines r with
           | [] => [str1 c]
           | l :: ls => String c l :: ls
           end
  end.

(** [f.writelines(lines)] *)
Definition writelines (lines : list string) : string :=
  fold_right String.append EmptyString lines.

(** [l[-n:]] for a positive [n], and [l[:n]] *)
Definition last_n {A} (n : nat) (l : list A) : list A :=
  skipn (length l - n)%nat l.

Definition first_n {A} (n : nat) (l : list A) : list A := firstn n l.

(** [s[n:]] *)
Fixpoint str_from (n : nat) (s : string) : string :=
  match n, s with
  | O, _ => s
  | S n', String _ r => str_from n' r
  | S _, EmptyString => EmptyString
  end.

(** [os.path.join(a, b)] *)
Fixpoint ends_with_slash (s : string) : bool :=
  match s with
  | EmptyString => false
  | String c EmptyString => Ascii.eqb c "/"
  | String _ r => ends_with_slash r
  end.

Definition path_join (a b : string) : string :=
  if startswith "/" b then b
  else if is_empty a || ends_with_slash a then a +:+ b
  else a +:+ "/" +:+ b.

(** [int(s)] in base ten: whitespace at both ends, an optional sign, then
    digits, single underscores allowed between digits.  The interpreter
    refuses a text of more than [limit] digits when [limit] is not 0
    ([sys.get_int_max_str_digits()], 4300 unless configured).  [None] is
    [ValueError]. *)
Inductive int_scan := AtStart | AfterDigit | AfterUnderscore.

Fixpoint scan_digits (st : int_scan) (acc : Z) (s : string) : option Z :=
  match s with
  | EmptyString =>
      match st with AfterDigit => Some acc | _ => None end
  | String c r =>
      if is_digit c then scan_digits AfterDigit (10 * acc + digit_value c) r
      else if Ascii.eqb c "_" then
        match st with
        | AfterDigit => scan_digits AfterUnderscore acc r
        | _ => None
        end
      else None
  end.

Fixpoint count_digits (s : string) : nat :=
  match s with
  | EmptyString => O
  | String c r => if is_digit c then S (count_digits r) else count_digits r
  end.

Definition py_int (limit : nat) (s : string) : option Z :=
  let t := strip_with is_int_space s in
  if negb (limit =? 0)%nat && (limit <? count_digits t)%nat then None
  else
    match t with
    | String "-" r => Z.opp <$> scan_digits AtStart 0 r
    | String "+" r => scan_digits AtStart 0 r
    | _ => scan_digits AtStart 0 t
    end.

(** ** Floating point *)

(** A Python [float] is a binary64 number. *)
Definition float := spec_float.

Definition f_add : float -> float -> float := SFadd 53 1024.
Definition f_sub : float -> float -> float := SFsub 53 1024.
Definition f_mul : float -> float -> float := SFmul 53 1024.
Definition f_div : float -> float -> float := SFdiv 53 1024.
Definition f_zero : float := S754_zero false.

Definition is_infinite (f : float) : bool :=
  match f with S754_infinity _ => true | _ => false end.

(** The float nearest to the integer [z], ties to even; beyond the
    largest float it is an infinity. *)
Definition nearest_float (z : Z) : float := binary_normalize 53 1024 z 0 false.

(** The float nearest to [a / b] for integers [a] and [b], [b] not 0. *)
Definition nearest_quotient (a b : Z) : float :=
  let negative := xorb (a <? 0) (b <? 0) in
  match Z.abs a with
  | Z0 => S754_zero (b <? 0)
  | ma =>
      let '(mz, ez, lz) := SFdiv_core_binary 53 1024 ma 0 (Z.abs b) 0 in
      binary_round_aux 53 1024 negative mz ez lz
  end.

(** The integer nearest to [n / d] for a positive [d], ties to even. *)
Definition div_half_even (n d : Z) : Z :=
  let q := n / d in
  let r := n mod d in
  match 2 * r ?= d with
  | Lt => q
  | Gt => q + 1
  | Eq => if Z.even q then q else q + 1
  end.

(** The integer nearest to [scale] times the finite float of mantissa
    [m] and exponent [e], ties to even, without its sign. *)
Definition scaled_round (scale : Z) (m : positive) (e : Z) : Z :=
  if 0 <=? e then scale * Z.pos m * 2 ^ e
  else div_half_even (scale * Z.pos m) (2 ^ (- e)).

Definition signed (s : bool) (z : Z) : Z := if s then - z else z.

(** ** Python values *)

#[warnings="-register-all"]
Inductive pyval :=
  | PNone
  | PBool (b : bool)
  | PInt (n : Z)
  | PFloat (f : float)
  | PStr (s : string)
  | PList (l : list pyval)
  | PDict (d : list (string * pyval)).

(** A [dict] with string keys, in insertion order. *)
Definition dict (V : Type) := list (string * V).

Fixpoint dict_get {V} (k : string) (d : dict V) : option V :=
  match d with
  | [] => None
  | (k', v) :: r => if String.eqb k k' then Some v else dict_get k r
  end.

(** [d[k] = v]: an existing key keeps its place, a new key goes last. *)
Fixpoint dict_set {V} (k : string) (v : V) (d : dict V) : dict V :=
  match d with
  | [] => [(k, v)]
  | (k', v') :: r =>
      if String.eqb k k' then (k, v) :: r else (k', v') :: dict_set k v r
  end.

(** [d.get(k, default)] *)
Definition dict_get_default {V} (k : string) (default : V) (d : dict V) : V :=
  match dict_get k d with Some v => v | None => default end.

(** Truth value of an object; a float is false when it equals zero. *)
Definition py_truthy (v : pyval) : bool :=
  match v with
  | PNone => false
  | PBool b => b
  | PInt n => negb (n =? 0)
  | PFloat f => negb (SFeqb f f_zero)
  | PStr s => negb (is_empty s)
  | PList l => match l with [] => false | _ => true end
  | PDict d => match d with [] => false | _ => true end
  end.

(** [v == s] for a string literal [s]. *)
Definition py_eq_str (v : pyval) (s : string) : bool :=
  match v with PStr t => String.eqb t s | _ => false end.

(** [v in (s1, s2, ...)] for string literals. *)
Definition py_in_strs (v : pyval) (ss : list string) : bool :=
  existsb (py_eq_str v) ss.

(** ** Exceptions and the two monads *)

(** The exception classes that the code can meet.  [Killed] is not one
    of them: it stands for the end of the server process when a
    [SIGKILL] reaches it; nothing runs after it and no handler sees it. *)
Inductive exn :=
  | FileNotFoundError
  | PermissionError
  | IsADirectoryError
  | ProcessLookupError
  | OSError
  | JSONDecodeError
  | UnicodeDecodeError
  | ValueError
  | TypeError
  | KeyError
  | IndexError
  | AttributeError
  | OverflowError
  | ZeroDivisionError
  | RecursionError
  | MemoryError
  | TimeoutExpired
  | Killed.

Definition exn_code (e : exn) : nat :=
  match e with
  | FileNotFoundError => 0 | PermissionError => 1 | IsADirectoryError => 2
  | ProcessLookupError => 3 | OSError => 4 | JSONDecodeError => 5
  | UnicodeDecodeError => 6 | ValueError => 7 | TypeError => 8
  | KeyError => 9 | IndexError => 10 | AttributeError => 11
  | OverflowError => 12 | ZeroDivisionError => 13 | RecursionError => 14
  | MemoryError => 15 | TimeoutExpired => 16 | Killed => 17
  end%nat.

Definition exn_eqb (a b : exn) : bool := (exn_code a =? exn_code b)%nat.

Definition is_killed (e : exn) : bool := exn_eqb e Killed.

(** [issubclass(c, base)] for two different classes. *)
Definition derives (c base : exn) : bool :=
  match c, base with
  | JSONDecodeError, ValueError
  | UnicodeDecodeError, ValueError
  | FileNotFoundError, OSError
  | PermissionError, OSError
  | IsADirectoryError, OSError
  | ProcessLookupError, OSError => true
  | _, _ => false
  end.

(** [isinstance(e, cls)] *)
Definition isinstance (e cls : exn) : bool :=
  negb (is_killed e) && (exn_eqb e cls || derives e cls).

(** [except (c1, c2, ...)] *)
Definition caught (classes : list exn) (e : exn) : bool :=
  existsb (isinstance e) classes.

Inductive result (A : Type) :=
  | Ok (a : A)
  | Raise (e : exn).
Arguments Ok {A} a.
Arguments Raise {A} e.

#[global] Instance result_ret : MRet result := fun _ a => Ok a.
#[global] Instance result_bind : MBind result := fun _ _ f m =>
  match m with Ok a => f a | Raise e => Raise e end.

(** [try: m  except Exception: handler] for a computation that does not
    touch the world. *)
Definition try_pure {A} (m : result A) (handler : A) : A :=
  match m with Ok a => a | Raise _ => handler end.

(** ** The outside world *)

(** Why a file that exists cannot be opened or read. *)
Inductive oserror :=
  | EACCES      (* no permission *)
  | EISDIR      (* the path is a directory *)
  | EIO.        (* any other failure of the system call *)

Definition os_exn (e : oserror) : exn :=
  match e with
  | EACCES => PermissionError
  | EISDIR => IsADirectoryError
  | EIO => OSError
  end.

(** Why a path cannot be opened for writing or appending: a directory
    on the way to it is missing, or the open is refused. *)
Inductive open_error :=
  | NoDirectory
  | Refused (e : oserror).

Definition open_exn (e : open_error) : exn :=
  match e with
  | NoDirectory => FileNotFoundError
  | Refused e => os_exn e
  end.

(** Why running a command fails: the program cannot be started, it does
    not end in time, or what it prints does not decode. *)
Inductive run_error :=
  | CannotStart (e : open_error)
  | TimedOut
  | Undecodable.

Definition run_exn (e : run_error) : exn :=
  match e with
  | CannotStart e => open_exn e
  | TimedOut => TimeoutExpired
  | Undecodable => UnicodeDecodeError
  end.

Inductive file_entry :=
  | Unreadable (e : oserror)   (* exists, opening or reading it fails *)
  | Binary (tail : option string)
      (* can be read, but its bytes are not valid UTF-8; [tail] is the
         text of its last fifty lines when these do decode *)
  | Text (content : string).   (* can be read and decodes to [content] *)

Inductive signal := SIG0 | SIGKILL.

(** A process other than the server; the process table maps each
    process id to one. *)
Record process := {
  p_argv : list string;          (* the command line *)
  p_ours : bool;                 (* may the server signal it? *)
  p_pgid : positive;             (* its process group *)
  p_new_session : bool;          (* started with its own session *)
  p_stdout : option string;      (* file opened in append mode, if any *)
  p_stderr : option string;
}.

(** Result of [subprocess.run(..., capture_output=True, text=True)]: the
    exit status and the decoded output, its line ends translated. *)
Record completed := { returncode : Z; stdout : string }.

Record World := {
  fs : gmap string file_entry;
  procs : gmap positive process;
  (* the server itself: its process id, its process group and its
     command line *)
  self_pid : positive;
  self_pgid : positive;
  self_argv : list string;
  (* the id that the kernel gives to the next process, when it is free *)
  next_pid : positive;
  (* does running this command fail?  ([pkill] ends in time when it can
     be started.) *)
  spawn_error : list string -> option run_error;
  (* exit status and output of the commands whose behaviour is not
     modelled ([df], [ssh]; the status of [pkill]) *)
  command_output : list string -> completed;
  (* what such a command does to the files *)
  command_effect : list string -> gmap string file_entry
                   -> gmap string file_entry;
  (* does [pkill -9 -f pattern] select a process with this command
     line?  The pattern is an extended regular expression. *)
  pkill_selects : string -> string -> bool;
  (* does opening this path for writing or appending fail (missing
     directory, no permission, a directory in the way)? *)
  write_error : string -> option open_error;
  (* does removing this path fail, for a reason other than its absence? *)
  remove_error : string -> option oserror;
  (* [datetime.datetime.now().isoformat()] *)
  now_iso : string;
}.

Definition set_fs (f : gmap string file_entry) (w : World) : World :=
  {| fs := f; procs := procs w;
     self_pid := self_pid w; self_pgid := self_pgid w;
     self_argv := self_argv w; next_pid := next_pid w;
     spawn_error := spawn_error w; command_output := command_output w;
     command_effect := command_effect w; pkill_selects := pkill_selects w;
     write_error := write_error w; remove_error := remove_error w;
     now_iso := now_iso w |}.

Definition set_procs (ps : gmap positive process) (w : World) : World :=
  {| fs := fs w; procs := ps;
     self_pid := self_pid w; self_pgid := self_pgid w;
     self_argv := self_argv w; next_pid := next_pid w;
     spawn_error := spawn_error w; command_output := command_output w;
     command_effect := command_effect w; pkill_selects := pkill_selects w;
     write_error := write_error w; remove_error := remove_error w;
     now_iso := now_iso w |}.

(** Computations that read and change the world and may raise.  What
    was done before an exception is raised stays done. *)
Definition M (A : Type) : Type := World -> World * result A.

#[global] Instance M_ret : MRet M := fun _ a w => (w, Ok a).
#[global] Instance M_bind : MBind M := fun _ _ f m w =>
  match m w with
  | (w', Ok a) => f a w'
  | (w', Raise e) => (w', Raise e)
  end.

Definition lift {A} (r : result A) : M A := fun w => (w, r).

Definition raise {A} (e : exn) : M A := fun w => (w, Raise e).

(** [try: m  except classes: handler] *)
Definition try_except {A} (m : M A) (classes : list exn) (handler : M A) : M A :=
  fun w =>
    match m w with
    | (w', Ok a) => (w', Ok a)
    | (w', Raise e) => if caught classes e then handler w' else (w', Raise e)
    end.

(** [try: m  except Exception: handler] *)
Definition try_except_all {A} (m : M A) (handler : M A) : M A :=
  fun w =>
    match m w with
    | (w', Ok a) => (w', Ok a)
    | (w', Raise e) => if is_killed e then (w', Raise e) else handler w'
    end.

(** [open(path, "r").read()] *)
Definition open_read (path : string) : M string := fun w =>
  match fs w !! path with
  | None => (w, Raise FileNotFoundError)
  | Some (Unreadable e) => (w, Raise (os_exn e))
  | Some (Binary _) => (w, Raise UnicodeDecodeError)
  | Some (Text t) => (w, Ok (universal_newlines t))
  end.

(** [open(path, "w").write(text)]: the file is opened, which empties it,
    and then written. *)
Definition open_write (path : string) (text : string) : M unit := fun w =>
  match write_error w path with
  | Some e => (w, Raise (open_exn e))
  | None => (set_fs (<[path := Text text]> (fs w)) w, Ok tt)
  end.

(** [open(path, "a")]: the file is created when it does not exist. *)
Definition open_append (path : string) : M unit := fun w =>
  match write_error w path with
  | Some e => (w, Raise (open_exn e))
  | None =>
      match fs w !! path with
      | None => (set_fs (<[path := Text EmptyString]> (fs w)) w, Ok tt)
      | Some _ => (w, Ok tt)
      end
  end.

(** [datetime.datetime.now().isoformat()] *)
Definition datetime_now_isoformat : M string := fun w => (w, Ok (now_iso w)).

(** [os.remove(path)] *)
Definition os_remove (path : string) : M unit := fun w =>
  match remove_error w path with
  | Some e => (w, Raise (os_exn e))
  | None =>
      match fs w !! path with
      | None => (w, Raise FileNotFoundError)
      | Some _ => (set_fs (delete path (fs w)) w, Ok tt)
      end
  end.

(** *** Signals *)

Definition int_min : Z := - 2 ^ 31.
Definition int_max : Z := 2 ^ 31 - 1.

(** Is the process [p] among those that [kill(pid, sig)] addresses?  A
    positive [pid] names one process, 0 the group of the caller, -1 every
    process but the first and the caller, and any other negative [pid]
    the group [- pid]. *)
Definition kill_target (w : World) (pid : Z) (p : positive) (pr : process)
  : bool :=
  if 0 <? pid then Z.pos p =? pid
  else if pid =? 0 then Pos.eqb (p_pgid pr) (self_pgid w)
  else if pid =? -1 then negb (Pos.eqb p 1)
  else Z.pos (p_pgid pr) =? - pid.

(** Is the server itself among them? *)
Definition kill_targets_self (w : World) (pid : Z) : bool :=
  if 0 <? pid then Z.pos (self_pid w) =? pid
  else if pid =? 0 then true
  else if pid =? -1 then false
  else Z.pos (self_pgid w) =? - pid.

Definition targets (w : World) (pid : Z) : gmap positive process :=
  filter (fun kv : positive * process => kill_target w pid kv.1 kv.2 = true)
    (procs w).

Definition ours (ps : gmap positive process) : gmap positive process :=
  filter (fun kv : positive * process => p_ours kv.2 = true) ps.

(** The processes left when those addressed that the server may signal
    are killed. *)
Definition survivors (w : World) (pid : Z) : gmap positive process :=
  filter (fun kv : positive * process =>
            (kill_target w pid kv.1 kv.2 && p_ours kv.2) = false)
    (procs w).

Definition is_empty_map {A} (m : gmap positive A) : bool :=
  match map_to_list m with [] => true | _ => false end.

(** [os.kill(pid, sig)].  A [pid] that does not fit a C [int] is
    refused before the system call, and the least [int] names no group.
    The call fails with [ESRCH] when it addresses no process, and with [EPERM] when it addresses some but may
    signal none of them; for [pid = -1] it succeeds as soon as it
    addresses one.  Signal 0 sends nothing. *)
Definition os_kill (pid : Z) (sig : signal) : M unit := fun w =>
  if (pid <? int_min) || (int_max <? pid) then (w, Raise OverflowError)
  else if pid =? int_min then (w, Raise ProcessLookupError)
  else
    let self := kill_targets_self w pid in
    let found := targets w pid in
    if negb self && is_empty_map found then (w, Raise ProcessLookupError)
    else if negb self && negb (pid =? -1) && is_empty_map (ours found)
    then (w, Raise PermissionError)
    else
      match sig with
      | SIG0 => (w, Ok tt)
      | SIGKILL =>
          let w' := set_procs (survivors w pid) w in
          if self then (w', Raise Killed) else (w', Ok tt)
      end.

(** ** Numbers: [int] and [float] with Python's mixing rules *)

Inductive num :=
  | NInt (z : Z)
  | NFloat (f : float).

(** [bool] is a subclass of [int]. *)
Definition as_num (v : pyval) : option num :=
  match v with
  | PInt n => Some (NInt n)
  | PBool b => Some (NInt (if b then 1 else 0))
  | PFloat f => Some (NFloat f)
  | _ => None
  end.

Definition of_num (n : num) : pyval :=
  match n with NInt z => PInt z | NFloat f => PFloat f end.

(** [float(z)] for an [int]: too large an integer is an [OverflowError]. *)
Definition float_of_int (z : Z) : result float :=
  let f := nearest_float z in
  if is_infinite f then Raise OverflowError else Ok f.

Definition num_float (n : num) : result float :=
  match n with NInt z => float_of_int z | NFloat f => Ok f end.

(** [a + b], [a - b], [a * b] where both operands are numbers: two
    integers give an integer, otherwise the integer operand is converted
    and the result is a float.  An operand that is not a number is a
    [TypeError]. *)
Definition py_arith (fz : Z -> Z -> Z) (ff : float -> float -> float)
  (a b : pyval) : result pyval :=
  match as_num a, as_num b with
  | Some (NInt x), Some (NInt y) => Ok (PInt (fz x y))
  | Some x, Some y =>
      fx ← num_float x;
      fy ← num_float y;
      mret (PFloat (ff fx fy))
  | _, _ => Raise TypeError
  end.

Definition py_add := py_arith Z.add f_add.
Definition py_sub := py_arith Z.sub f_sub.
Definition py_mul := py_arith Z.mul f_mul.

(** [a / k] for an integer [k]: always a [float]. *)
Definition py_truediv (a : pyval) (k : Z) : result float :=
  if k =? 0 then
    match as_num a with
    | Some _ => Raise ZeroDivisionError
    | None => Raise TypeError
    end
  else
    match as_num a with
    | Some (NInt z) =>
        let f := nearest_quotient z k in
        if is_infinite f then Raise OverflowError else Ok f
    | Some (NFloat f) =>
        fk ← float_of_int k;
        mret (f_div f fk)
    | None => Raise TypeError
    end.

(** [max(0, x)]: the first argument wins unless [x] is greater. *)
Definition py_max0 (x : pyval) : result pyval :=
  match as_num x with
  | Some (NInt z) => Ok (if 0 <? z then x else PInt 0)
  | Some (NFloat f) => Ok (if SFltb f_zero f then x else PInt 0)
  | None => Raise TypeError
  end.

(** [round(x)] of a float: the nearest integer, ties to even. *)
Definition py_round (f : float) : result Z :=
  match f with
  | S754_zero _ => Ok 0
  | S754_finite s m e => Ok (signed s (scaled_round 1 m e))
  | S754_infinity _ => Raise OverflowError
  | S754_nan => Raise ValueError
  end.

(** [round(x, 1)] of a float: the float nearest to the decimal with one
    digit after the point that is nearest to [x], ties to even. *)
Definition py_round1 (f : float) : float :=
  match f with
  | S754_finite s m e =>
      match scaled_round 10 m e with
      | Z0 => S754_zero s
      | r => nearest_quotient (signed s r) 10
      end
  | _ => f
  end.

(** ** Dynamic operations on values *)

(** [o[k]] for a string [k] *)
Definition py_getitem (o : pyval) (k : string) : result pyval :=
  match o with
  | PDict d =>
      match dict_get k d with
      | Some v => Ok v
      | None => Raise KeyError
      end
  | _ => Raise TypeError
  end.

(** [o.get(k, default)] *)
Definition py_get (o : pyval) (k : string) (default : pyval) : result pyval :=
  match o with
  | PDict d => Ok (dict_get_default k default d)
  | _ => Raise AttributeError
  end.

(** [o[k] = v] for a string [k] *)
Definition py_setitem (o : pyval) (k : string) (v : pyval) : result pyval :=
  match o with
  | PDict d => Ok (PDict (dict_set k v d))
  | _ => Raise TypeError
  end.

Fixpoint chars_of (s : string) : list pyval :=
  match s with
  | EmptyString => []
  | String c r => PStr (str1 c) :: chars_of r
  end.

(** The items that a [for] loop over [o] sees. *)
Definition py_iter (o : pyval) : result (list pyval) :=
  match o with
  | PList l => Ok l
  | PDict d => Ok (map (fun kv => PStr (fst kv)) d)
  | PStr s => Ok (chars_of s)
  | _ => Raise TypeError
  end.

(** [[j for j in l if test(j)]], the test evaluated from left to right. *)
Fixpoint filter_r (test : pyval -> result bool) (l : list pyval)
  : result (list pyval) :=
  match l with
  | [] => Ok []
  | j :: r =>
      b ← test j;
      r' ← filter_r test r;
      mret (if b : bool then j :: r' else r')
  end.

(** [[f(j) for j in l]] *)
Fixpoint map_r {A B} (f : A -> result B) (l : list A) : result (list B) :=
  match l with
  | [] => Ok []
  | j :: r =>
      y ← f j;
      r' ← map_r f r;
      mret (y :: r')
  end.

(** A loop that updates an accumulator and stops at the first exception. *)
Fixpoint fold_r {A B} (f : A -> B -> result A) (l : list B) (a : A)
  : result A :=
  match l with
  | [] => Ok a
  | x :: r =>
      a' ← f a x;
      fold_r f r a'
  end.

(** ** Dates *)

(** A [datetime]: microseconds of wall-clock time since the start of the
    calendar, and the UTC offset in microseconds when the value is
    timezone-aware. *)
Record datetime := { dt_wall : Z; dt_offset : option Z }.

(** The microseconds of [a - b]; mixing naive and aware is a
    [TypeError]. *)
Definition dt_sub_micros (a b : datetime) : result Z :=
  match dt_offset a, dt_offset b with
  | None, None => Ok (dt_wall a - dt_wall b)
  | Some oa, Some ob => Ok ((dt_wall a - oa) - (dt_wall b - ob))
  | _, _ => Raise TypeError
  end.

(** [(a - b).total_seconds()]: the microseconds divided by a million. *)
Definition dt_sub_seconds (a b : datetime) : result float :=
  us ← dt_sub_micros a b;
  mret (nearest_quotient us 1000000).

(** ** Library functions and settings *)

Class PyLib := {
  (* [json.load] of a text file and [json.loads] of a [str] *)
  json_loads : string -> result pyval;
  (* [json.loads] of the bytes of a request body *)
  json_loads_bytes : string -> result pyval;
  (* [json.dump(v, f)]: the text that reaches the file, and the exception
     that stops the encoder, if any *)
  json_dump : pyval -> string * option exn;
  (* [datetime.datetime.fromisoformat]; [None] is [ValueError] *)
  fromisoformat : string -> option datetime;
  (* [sum] of a list of floats that is not empty *)
  py_sum : list float -> float;
  (* [urllib.parse.unquote] *)
  unquote : string -> string;
  unquote_plain : forall s, char_in "%" s = false -> unquote s = s;
  (* [sys.get_int_max_str_digits()]; 0 is no limit *)
  int_max_str_digits : nat;
}.

(** The module-level constants, read from the environment at start-up. *)
Record Settings := {
  STATE_FILE : string;
  LOG_DIR : string;
  CONFIG_FILE : string;
  INSTALL_DIR : string;
  SCRIPT_DIR : string;
}.

Definition default_settings : Settings := {|
  STATE_FILE := "/opt/media-mirror/state.json";
  LOG_DIR := "/opt/media-mirror/logs";
  CONFIG_FILE := "/opt/media-mirror/config.env";
  INSTALL_DIR := "/opt/media-mirror";
  SCRIPT_DIR := "/opt/media-mirror/dashboard";
|}.

(** ** Processes and external commands *)

(** The command line of a process, as [pkill -f] reads it. *)
Definition command_line (argv : list string) : string := String.concat " " argv.

Definition cmdline (p : process) : string := command_line (p_argv p).

(** An argument with a NUL character is refused before anything is run. *)
Definition has_nul (argv : list string) : bool := existsb (char_in nul) argv.

(** The kernel hands out a process id that is not in use. *)
Definition used_pids (w : World) : gset positive :=
  {[ self_pid w ]} ∪ dom (procs w).

Definition pick_pid (w : World) : positive :=
  if bool_decide (next_pid w ∈ used_pids w) then fresh (used_pids w)
  else next_pid w.

(** [tail -50 path] through [subprocess.run(..., text=True)]: the last
    fifty lines of the file, decoded and with their line ends translated;
    a failure exit status and no output when the file cannot be read; and
    a [UnicodeDecodeError] when what [tail] prints does not decode. *)
Definition tail_50 (w : World) (path : string) : result completed :=
  match fs w !! path with
  | Some (Text t) =>
      Ok {| returncode := 0;
            stdout := universal_newlines (writelines (last_n 50 (readlines t))) |}
  | Some (Binary (Some t)) =>
      Ok {| returncode := 0; stdout := universal_newlines t |}
  | Some (Binary None) => Raise UnicodeDecodeError
  | Some (Unreadable _) | None =>
      Ok {| returncode := 1; stdout := EmptyString |}
  end.

(** [pkill -9 -f pattern]: every selected process that the caller may
    signal is killed, the server included when its own command line is
    selected. *)
Definition pkill_hit (w : World) (pattern : string) (pr : process) : bool :=
  p_ours pr && pkill_selects w pattern (cmdline pr).

Definition pkill_9 (pattern : string) : M completed := fun w =>
  let w' :=
    set_procs
      (filter (fun kv : positive * process => pkill_hit w pattern kv.2 = false)
         (procs w)) w in
  if pkill_selects w pattern (command_line (self_argv w))
  then (w', Raise Killed)
  else (w', Ok (command_output w ["pkill"; "-9"; "-f"; pattern])).

(** A command whose behaviour is given by the world. *)
Definition run_other (argv : list string) : M completed := fun w =>
  let w' := set_fs (command_effect w argv (fs w)) w in
  match spawn_error w argv with
  | Some e => (w', Raise (run_exn e))
  | None => (w', Ok (command_output w argv))
  end.

(** [subprocess.run(argv, capture_output=True, text=True, timeout=...)] *)
Definition subprocess_run (argv : list string) : M completed := fun w =>
  if has_nul argv then (w, Raise ValueError)
  else
    match argv with
    | ["tail"; "-50"; path] =>
        if startswith "-" path then run_other argv w
        else
          match spawn_error w argv with
          | Some e => (w, Raise (run_exn e))
          | None => (w, tail_50 w path)
          end
    | ["pkill"; "-9"; "-f"; pattern] =>
        match spawn_error w argv with
        | Some e => (w, Raise (run_exn e))
        | None => pkill_9 pattern w
        end
    | _ => run_other argv w
    end.

(** [subprocess.Popen(argv, stdout=out, stderr=err, start_new_session=True)],
    returning [proc.pid]; the new process leads a group of its own. *)
Definition popen (argv : list string) (out err : string) : M Z := fun w =>
  if has_nul argv then (w, Raise ValueError)
  else
    match spawn_error w argv with
    | Some e => (w, Raise (run_exn e))
    | None =>
        let pid := pick_pid w in
        (set_procs
           (<[pid := {| p_argv := argv; p_ours := true; p_pgid := pid;
                        p_new_session := true;
                        p_stdout := Some out; p_stderr := Some err |}]>
              (procs w)) w,
         Ok (Z.pos pid))
    end.

(** ** Responses *)

(** What a handler sends.  The body of a JSON response is
    [json.dumps(v)], computed once the status line and the headers have
    been sent: the value stands for that text, and where the encoder
    refuses the value its exception leaves the handler at that point. *)
Inductive body :=
  | BodyEmpty
  | BodyText (s : string)
  | BodyJson (v : pyval).

Inductive reply :=
  | Reply (code : Z) (headers : list (string * string)) (b : body)
  | StaticFile (path : string). (* left to [SimpleHTTPRequestHandler] *)

(** [self._json_response(code, data)] *)
Definition _json_response (code : Z) (data : pyval) : reply :=
  Reply code [("Content-Type", "application/json");
              ("Access-Control-Allow-Origin", "*")] (BodyJson data).

Definition default_state : pyval :=
  PDict [("jobs", PList []); ("stats", PDict []);
         ("runner", PDict [("status", PStr "unknown");
                           ("paused", PBool false)])].

(** [f'{key}="{val}"\n'] *)
Definition config_line (key val : string) : string :=
  key +:+ "=" +:+ str1 dquote +:+ val +:+ str1 dquote +:+ str1 nl.

(** Is this stripped line a [key=value] line? *)
Definition is_key_line (stripped : string) : bool :=
  negb (is_empty stripped) && negb (startswith "#" stripped)
  && char_in "=" stripped.

(** The two chained [strip] calls on the value of a line: first the
    double quotes at both ends, then the single quotes at both ends. *)
Definition config_value (v : string) : string :=
  py_strip_chars (str1 squote) (py_strip_chars (str1 dquote) v).

Definition optional_pid (pid : option Z) : pyval :=
  match pid with Some n => PInt n | None => PNone end.

(** Truth value of what [get_runner_pid] returns. *)
Definition pid_truthy (pid : option Z) : bool :=
  match pid with Some n => negb (n =? 0) | None => false end.

(** [pid or 0] *)
Definition pid_or_0 (pid : option Z) : Z :=
  match pid with Some n => n | None => 0 end.

Definition list_index (l : list string) (i : nat) : result string :=
  match l !! i with Some x => Ok x | None => Raise IndexError end.

Definition list_last (l : list string) : result string :=
  match last l with Some x => Ok x | None => Raise IndexError end.

(** The dictionary built from one line of [df -h] output. *)
Definition disk_entry (mount_prefix : string) (parts : list string)
  : result pyval :=
  mount ← list_last parts;
  size ← list_index parts 1;
  used ← list_index parts 2;
  avail ← list_index parts 3;
  pct ← list_index parts 4;
  mret (PDict [("mount", PStr (mount_prefix +:+ mount)); ("size", PStr size);
               ("used", PStr used); ("avail", PStr avail); ("pct", PStr pct)]).

(** ** The server *)

Section Server.
Context {lib : PyLib} (env : Settings).

(** [read_state] *)
Definition read_state : M pyval :=
  try_except
    (text ← open_read (STATE_FILE env);
     lift (json_loads text))
    [FileNotFoundError; JSONDecodeError]
    (mret default_state).

(** One turn of the loop of [read_config]. *)
Definition read_config_line (config : dict string) (line : string)
  : dict string :=
  let line := py_strip line in
  if is_key_line line then
    let '(key, _, val) := partition "=" line in
    dict_set (py_strip key) (config_value (py_strip val)) config
  else config.

(** [read_config] *)
Definition read_config : M (dict string) :=
  try_except
    (text ← open_read (CONFIG_FILE env);
     mret (fold_left read_config_line (readlines text) []))
    [FileNotFoundError]
    (mret []).

(** One turn of the first loop of [write_config]: the lines written so
    far and the keys already updated. *)
Definition patch_line (updates : dict string)
  (acc : list string * gset string) (line : string)
  : list string * gset string :=
  let '(new_lines, updated_keys) := acc in
  let stripped := py_strip line in
  if is_key_line stripped then
    let key := py_strip (hd EmptyString (split_once "=" stripped)) in
    match dict_get key updates with
    | Some val => (new_lines ++ [config_line key val], {[key]} ∪ updated_keys)
    | None => (new_lines ++ [line], updated_keys)
    end
  else (new_lines ++ [line], updated_keys).

(** One turn of the second loop: keys that were not in the file. *)
Definition append_missing (updated_keys : gset string)
  (new_lines : list string) (kv : string * string) : list string :=
  if bool_decide (kv.1 ∈ updated_keys) then new_lines
  else new_lines ++ [config_line kv.1 kv.2].

(** [write_config] *)
Definition write_config (updates : dict string) : M unit :=
  lines ← try_except
             (text ← open_read (CONFIG_FILE env); mret (readlines text))
             [FileNotFoundError]
             (mret []);
  let '(new_lines, updated_keys) := fold_left (patch_line updates) lines ([], ∅) in
  let new_lines := fold_left (append_missing updated_keys) updates new_lines in
  open_write (CONFIG_FILE env) (writelines new_lines).

(** The body of the [try] of one probe of [get_disk_usage]. *)
Definition probe_disk (label mount_prefix : string) (argv : list string)
  (disks : dict pyval) : M (dict pyval) :=
  try_except_all
    (result ← subprocess_run argv;
     if returncode result =? 0 then
       let lines := split_on nl (py_strip (stdout result)) in
       if (1 <? length lines)%nat then
         entry ← lift (disk_entry mount_prefix (split_ws (nth 1 lines EmptyString)));
         mret (dict_set label entry disks)
       else mret disks
     else mret disks)
    (mret disks).

Definition probe_local (disks : dict pyval) (lp : string * string)
  : M (dict pyval) :=
  let '(label, path) := lp in
  if is_empty path then mret disks
  else probe_disk label EmptyString ["df"; "-h"; path] disks.

(** [get_disk_usage] *)
Definition get_disk_usage : M (dict pyval) :=
  config ← read_config;
  disks ← probe_local [] ("source", dict_get_default "SOURCE_MOVIES" EmptyString config);
  disks ← probe_local disks ("temp", dict_get_default "TEMP_DIR" EmptyString config);
  let dest_host := dict_get_default "DEST_HOST" EmptyString config in
  let dest_key := dict_get_default "DEST_SSH_KEY" EmptyString config in
  let dest_movies := dict_get_default "DEST_MOVIES" EmptyString config in
  if negb (is_empty dest_host) && negb (is_empty dest_key)
     && negb (is_empty dest_movies)
  then probe_disk "dest" (dest_host +:+ ":")
         ["ssh"; "-i"; dest_key; "-o"; "StrictHostKeyChecking=no";
          "-o"; "ConnectTimeout=3"; dest_host;
          "df -h '" +:+ dest_movies +:+ "'"]
         disks
  else mret disks.

Definition pid_file : string := path_join (INSTALL_DIR env) "runner.pid".

Definition worker_script : string :=
  path_join (INSTALL_DIR env) "media-mirror.sh".

(** [get_runner_pid] *)
Definition get_runner_pid : M (option Z) :=
  try_except
    (text ← open_read pid_file;
     pid ← match py_int int_max_str_digits (py_strip text) with
           | Some n => mret n
           | None => raise ValueError
           end;
     _ ← os_kill pid SIG0;
     mret (Some pid))
    [FileNotFoundError; ValueError; ProcessLookupError; PermissionError]
    (mret None).

(** [start_runner] *)
Definition start_runner : M pyval :=
  pid ← get_runner_pid;
  if pid_truthy pid then
    mret (PDict [("ok", PBool false);
                 ("error", PStr "Runner is already running")])
  else
    let log_out := path_join (LOG_DIR env) "runner-stdout.log" in
    let log_err := path_join (LOG_DIR env) "runner-stderr.log" in
    _ ← open_append log_out;
    _ ← open_append log_err;
    new_pid ← popen ["/bin/bash"; worker_script] log_out log_err;
    mret (PDict [("ok", PBool true); ("pid", PInt new_pid)]).

(** [stop_runner] *)
Definition stop_runner : M pyval :=
  pid ← get_runner_pid;
  _ ← try_except_all
        (_ ← subprocess_run ["pkill"; "-9"; "-f"; worker_script]; mret tt)
        (mret tt);
  _ ← (if pid_truthy pid then
         try_except (os_kill (pid_or_0 pid) SIGKILL)
           [ProcessLookupError; PermissionError] (mret tt)
       else mret tt);
  _ ← try_except (os_remove pid_file) [FileNotFoundError] (mret tt);
  mret (PDict [("ok", PBool true); ("stopped", PInt (pid_or_0 pid))]).

(** [[j for j in state["jobs"] if test(j)]] *)
Definition select_jobs (state : pyval) (test : pyval -> result bool)
  : result (list pyval) :=
  jobs ← py_getitem state "jobs";
  js ← py_iter jobs;
  filter_r test js.

(** [j["status"] in (s1, s2, ...)] *)
Definition status_in (ss : list string) (j : pyval) : result bool :=
  st ← py_getitem j "status";
  mret (py_in_strs st ss).

(** [j["status"] == "done" and j.get("started") and j.get("updated")] *)
Definition done_with_times (j : pyval) : result bool :=
  st ← py_getitem j "status";
  if py_eq_str st "done" then
    started ← py_get j "started" PNone;
    if py_truthy started then
      updated ← py_get j "updated" PNone;
      mret (py_truthy updated)
    else mret false
  else mret false.

(** [datetime.datetime.fromisoformat(v)] *)
Definition py_fromisoformat (v : pyval) : result datetime :=
  match v with
  | PStr s =>
      match fromisoformat s with
      | Some d => Ok d
      | None => Raise ValueError
      end
  | _ => Raise TypeError
  end.

(** One turn of the loop that fills [times]. *)
Definition job_seconds (j : pyval) : result float :=
  s ← py_getitem j "started";
  start ← py_fromisoformat s;
  u ← py_getitem j "updated";
  end_ ← py_fromisoformat u;
  dt_sub_seconds end_ start.

(** The body of the [try] that fills [eta]. *)
Definition compute_eta (state inventory : pyval)
  (done_jobs_with_times : list pyval) : result pyval :=
  times ← map_r job_seconds done_jobs_with_times;
  avg_secs ← py_truediv (PFloat (py_sum times)) (Z.of_nat (length times));
  source_total ← py_get inventory "source_total" (PInt 0);
  dest_done ← py_get inventory "dest_done" (PInt 0);
  session ← select_jobs state (status_in ["done"; "skipped"]);
  let session_done := Z.of_nat (length session) in
  total_completed ← py_add dest_done (PInt session_done);
  remaining ← (if py_truthy source_total then
                 d ← py_sub source_total total_completed;
                 py_max0 d
               else mret (PInt 0));
  avg_per_file_secs ← py_round avg_secs;
  prod ← py_mul remaining (PFloat avg_secs);
  hours ← py_truediv prod 3600;
  days ← py_truediv prod 86400;
  mret (PDict [("avg_per_file_secs", PInt avg_per_file_secs);
               ("source_total", source_total);
               ("completed", total_completed);
               ("remaining", remaining);
               ("est_remaining_hours", PFloat (py_round1 hours));
               ("est_remaining_days", PFloat (py_round1 days))]).

(** [eta], as it stands when the response is built. *)
Definition status_eta (state inventory : pyval)
  (done_jobs_with_times : list pyval) : pyval :=
  match done_jobs_with_times with
  | [] => PDict []
  | _ :: _ =>
      try_pure (compute_eta state inventory done_jobs_with_times) (PDict [])
  end.

(** The lines of [do_GET] that compute [eta] from the state document. *)
Definition eta_block (state : pyval) : result pyval :=
  done_jobs_with_times ← select_jobs state done_with_times;
  inventory ← py_get state "inventory" (PDict []);
  mret (status_eta state inventory done_jobs_with_times).

Definition config_summary (config : dict string) : pyval :=
  let get k d := PStr (dict_get_default k d config) in
  PDict [("source_movies", get "SOURCE_MOVIES" EmptyString);
         ("source_tv", get "SOURCE_TV" EmptyString);
         ("dest_host", get "DEST_HOST" EmptyString);
         ("dest_movies", get "DEST_MOVIES" EmptyString);
         ("dest_tv", get "DEST_TV" EmptyString);
         ("temp_dir", get "TEMP_DIR" EmptyString);
         ("dest_ssh_key", get "DEST_SSH_KEY" EmptyString);
         ("target_height", get "TARGET_HEIGHT" "720");
         ("ffmpeg_crf", get "FFMPEG_CRF" "23");
         ("ffmpeg_preset", get "FFMPEG_PRESET" "medium");
         ("ffmpeg_threads", get "FFMPEG_THREADS" "4");
         ("rsync_bwlimit", get "RSYNC_BWLIMIT" "100000");
         ("scan_interval", get "SCAN_INTERVAL" "3600");
         ("dashboard_port", get "DASHBOARD_PORT" "8080")].

Definition str_dict (d : dict string) : pyval :=
  PDict (map (fun kv => (kv.1, PStr kv.2)) d).

(** The branch of [do_GET] for [/api/status]: the response dictionary. *)
Definition api_status : M pyval :=
  state ← read_state;
  config ← read_config;
  disks ← get_disk_usage;
  active ← lift (select_jobs state
                   (status_in ["converting"; "transferring"; "queued"]));
  all_done ← lift (select_jobs state (status_in ["done"]));
  let recent_done := last_n 20 all_done in
  failed ← lift (select_jobs state (status_in ["failed"]));
  eta ← lift (eta_block state);
  runner ← lift (py_get state "runner" (PDict []));
  runner_pid ← get_runner_pid;
  stats ← lift (py_get state "stats" (PDict []));
  now ← datetime_now_isoformat;
  mret (PDict [("runner", runner);
               ("runner_pid", optional_pid runner_pid);
               ("stats", stats);
               ("eta", eta);
               ("active_jobs", PList (first_n 50 active));
               ("recent_done", PList recent_done);
               ("failed", PList (first_n 20 failed));
               ("disks", PDict disks);
               ("config", config_summary config);
               ("timestamp", PStr now)]).

(** The branches for [/api/pause] and [/api/resume]. *)
Definition api_set_paused (paused : bool) : M reply :=
  state ← read_state;
  runner ← lift (py_getitem state "runner");
  runner' ← lift (py_setitem runner "paused" (PBool paused));
  state' ← lift (py_setitem state "runner" runner');
  (* what the encoder wrote stays in the file when it raises *)
  _ ← open_write (STATE_FILE env) (json_dump state').1;
  _ ← match (json_dump state').2 with
      | Some e => raise e
      | None => mret tt
      end;
  mret (_json_response 200 (PDict [("ok", PBool true);
                                   ("paused", PBool paused)])).

(** The branch for [/api/log/...]. *)
Definition api_log (path : string) : M reply :=
  let filename := unquote (str_from 9 path) in
  let file := path_join (LOG_DIR env) filename in
  try_except_all
    (result ← subprocess_run ["tail"; "-50"; file];
     mret (Reply 200 [("Content-Type", "text/plain")]
             (BodyText (stdout result))))
    (mret (Reply 404 [] BodyEmpty)).

(** The branch for the dashboard page. *)
Definition api_index : M reply :=
  try_except
    (content ← open_read (path_join (SCRIPT_DIR env) "index.html");
     mret (Reply 200 [("Content-Type", "text/html")] (BodyText content)))
    [FileNotFoundError]
    (mret (Reply 404 [] (BodyText "index.html not found"))).

(** [DashboardHandler.do_GET]; [path] is [parsed.path]. *)
Definition do_GET (path : string) : M reply :=
  if String.eqb path "/api/status" then
    response ← api_status;
    mret (_json_response 200 response)
  else if String.eqb path "/api/config" then
    config ← read_config;
    mret (_json_response 200 (str_dict config))
  else if String.eqb path "/api/pause" then api_set_paused true
  else if String.eqb path "/api/resume" then api_set_paused false
  else if String.eqb path "/api/runner/start" then
    r ← start_runner;
    mret (_json_response 200 r)
  else if String.eqb path "/api/runner/stop" then
    r ← stop_runner;
    mret (_json_response 200 r)
  else if String.eqb path "/api/runner/restart" then
    (* [time.sleep(2)] between the two calls changes nothing here *)
    _ ← stop_runner;
    r ← start_runner;
    mret (_json_response 200 r)
  else if startswith "/api/log/" path then api_log path
  else if String.eqb path "/" || String.eqb path "/index.html" then api_index
  else mret (StaticFile path).

End Server.

(** ** A small instance of the library, used in the examples

    The decoder reads the JSON subset the examples need (objects, arrays,
    strings without escapes, integers, [true], [false], [null]) and
    answers [JSONDecodeError] to everything else; the date parser reads
    [YYYY-MM-DD] followed by any separator character and [HH:MM:SS], with
    an optional [+HH:MM] or [-HH:MM] offset; [sum] adds from left to
    right, starting from zero; [unquote] reads the escapes of ASCII
    characters; the pattern of [pkill] is read with the dot as its only
    special character. *)

Module Sample.

(** The whitespace of JSON. *)
Definition is_json_space (c : ascii) : bool :=
  Ascii.eqb c " " || Ascii.eqb c "009" || Ascii.eqb c nl || Ascii.eqb c cr.

Definition skip_ws (s : string) : string := lstrip_with is_json_space s.

Fixpoint take_digits (s : string) : string * string :=
  match s with
  | String c r =>
      if is_digit c then let '(d, rest) := take_digits r in (String c d, rest)
      else (EmptyString, s)
  | EmptyString => (EmptyString, EmptyString)
  end.

Fixpoint digits_to_Z (acc : Z) (s : string) : Z :=
  match s with
  | EmptyString => acc
  | String c r => digits_to_Z (10 * acc + digit_value c) r
  end.

Definition parse_nat (s : string) : option (Z * string) :=
  let '(d, rest) := take_digits s in
  if is_empty d then None else Some (digits_to_Z 0 d, rest).

Definition parse_string_body (s : string) : option (string * string) :=
  let '(b, found, a) := partition dquote s in
  if found && negb (char_in "092"%char b) then Some (b, a) else None.

Definition expect (c : ascii) (s : string) : option string :=
  match s with
  | String d r => if Ascii.eqb c d then Some r else None
  | EmptyString => None
  end.

(** The items of an array after the first, up to the closing bracket. *)
Fixpoint parse_more_items (value : string -> option (pyval * string))
  (n : nat) (s : string) : option (list pyval * string) :=
  match n with
  | O => None
  | S n' =>
      match skip_ws s with
      | String "]" r => Some ([], r)
      | String "," r =>
          '(v, r1) ← value r;
          '(vs, r2) ← parse_more_items value n' r1;
          Some (v :: vs, r2)
      | _ => None
      end
  end.

Definition parse_member (value : string -> option (pyval * string))
  (s : string) : option (string * pyval * string) :=
  r0 ← expect dquote (skip_ws s);
  '(k, r1) ← parse_string_body r0;
  r2 ← expect ":" (skip_ws r1);
  '(v, r3) ← value r2;
  Some (k, v, r3).

Fixpoint parse_more_members (value : string -> option (pyval * string))
  (n : nat) (acc : dict pyval) (s : string) : option (dict pyval * string) :=
  match n with
  | O => None
  | S n' =>
      match skip_ws s with
      | String "}" r => Some (acc, r)
      | String "," r =>
          '(k, v, r1) ← parse_member value r;
          parse_more_members value n' (dict_set k v acc) r1
      | _ => None
      end
  end.

Fixpoint parse_value (fuel : nat) (s : string) : option (pyval * string) :=
  match fuel with
  | O => None
  | S fuel' =>
      let value := parse_value fuel' in
      let n := String.length s in
      match skip_ws s with
      | String "[" r =>
          match skip_ws r with
          | String "]" r' => Some (PList [], r')
          | _ =>
              '(v, r1) ← value r;
              '(vs, r2) ← parse_more_items value n r1;
              Some (PList (v :: vs), r2)
          end
      | String "{" r =>
          match skip_ws r with
          | String "}" r' => Some (PDict [], r')
          | _ =>
              '(k, v, r1) ← parse_member value r;
              '(d, r2) ← parse_more_members value n [(k, v)] r1;
              Some (PDict d, r2)
          end
      | String "-" r => '(z, r') ← parse_nat r; Some (PInt (- z), r')
      | String c r as t =>
          if Ascii.eqb c dquote then
            '(b, r') ← parse_string_body r; Some (PStr b, r')
          else if is_digit c then
            '(z, r') ← parse_nat t; Some (PInt z, r')
          else if startswith "null" t then Some (PNone, str_from 4 t)
          else if startswith "true" t then Some (PBool true, str_from 4 t)
          else if startswith "false" t then Some (PBool false, str_from 5 t)
          else None
      | EmptyString => None
      end
  end.

Definition parse (s : string) : option pyval :=
  '(v, rest) ← parse_value (S (String.length s)) s;
  if is_empty (skip_ws rest) then Some v else None.

Definition loads (s : string) : result pyval :=
  match parse s with Some v => Ok v | None => Raise JSONDecodeError end.

Fixpoint digits_of (fuel : nat) (n : Z) (acc : string) : string :=
  match fuel with
  | O => acc
  | S fuel' =>
      let acc' := String (ascii_of_nat (48 + Z.to_nat (n mod 10))) acc in
      if n / 10 =? 0 then acc' else digits_of fuel' (n / 10) acc'
  end.

Definition show_Z (n : Z) : string :=
  if n <? 0 then "-" +:+ digits_of (Z.to_nat (Z.log2 (- n)) + 1) (- n) EmptyString
  else digits_of (Z.to_nat (Z.log2 n) + 1) n EmptyString.

Definition quoted (s : string) : string := str1 dquote +:+ s +:+ str1 dquote.

Definition join_with (sep : string) (l : list string) : string :=
  String.concat sep l.

(** A float is written as its mantissa and exponent; the examples store
    none. *)
Definition show_float (f : float) : string :=
  match f with
  | S754_zero s => if s then "-0.0" else "0.0"
  | S754_infinity s => if s then "-Infinity" else "Infinity"
  | S754_nan => "NaN"
  | S754_finite s m e =>
      (if s then "-" else "") +:+ show_Z (Z.pos m) +:+ "p" +:+ show_Z e
  end.

Fixpoint dumps (v : pyval) : string :=
  match v with
  | PNone => "null"
  | PBool true => "true"
  | PBool false => "false"
  | PInt n => show_Z n
  | PFloat f => show_float f
  | PStr s => quoted s
  | PList l => "[" +:+ join_with ", " (map dumps l) +:+ "]"
  | PDict d =>
      "{" +:+ join_with ", "
                (map (fun kv => quoted kv.1 +:+ ": " +:+ dumps kv.2) d)
          +:+ "}"
  end.

(** Days from 1970-01-01 to the given civil date. *)
Definition days_from_civil (y m d : Z) : Z :=
  let y' := if m <=? 2 then y - 1 else y in
  let era := y' / 400 in
  let yoe := y' - era * 400 in
  let mp := if 2 <? m then m - 3 else m + 9 in
  let doy := (153 * mp + 2) / 5 + d - 1 in
  let doe := yoe * 365 + yoe / 4 - yoe / 100 + doy in
  era * 146097 + doe - 719468.

Definition is_leap (y : Z) : bool :=
  (y mod 4 =? 0) && (negb (y mod 100 =? 0) || (y mod 400 =? 0)).

Definition days_in_month (y m : Z) : Z :=
  if m =? 2 then (if is_leap y then 29 else 28)
  else if (m =? 4) || (m =? 6) || (m =? 9) || (m =? 11) then 30 else 31.

(** Exactly [n] digits. *)
Fixpoint fixed_digits (n : nat) (acc : Z) (s : string) : option (Z * string) :=
  match n, s with
  | O, _ => Some (acc, s)
  | S n', String c r =>
      if is_digit c then fixed_digits n' (10 * acc + digit_value c) r else None
  | S _, EmptyString => None
  end.

Definition parse_hms (s : string) : option (Z * string) :=
  '(h, r1) ← fixed_digits 2 0 s;
  r2 ← expect ":" r1;
  '(mi, r3) ← fixed_digits 2 0 r2;
  r4 ← expect ":" r3;
  '(sec, r5) ← fixed_digits 2 0 r4;
  if (h <? 24) && (mi <? 60) && (sec <? 60)
  then Some ((h * 60 + mi) * 60 + sec, r5) else None.

Definition parse_offset (s : string) : option (option Z) :=
  match s with
  | EmptyString => Some None
  | String c r =>
      '(h, r1) ← fixed_digits 2 0 r;
      r2 ← expect ":" r1;
      '(mi, r3) ← fixed_digits 2 0 r2;
      let secs := (h * 60 + mi) * 60 in
      if negb (is_empty r3) || negb ((h <? 24) && (mi <? 60)) then None
      else if Ascii.eqb c "+" then Some (Some (secs * 1000000))
      else if Ascii.eqb c "-" then Some (Some (- secs * 1000000))
      else None
  end.

Definition isoparse (s : string) : option datetime :=
  '(y, r1) ← fixed_digits 4 0 s;
  r2 ← expect "-" r1;
  '(m, r3) ← fixed_digits 2 0 r2;
  r4 ← expect "-" r3;
  '(d, r5) ← fixed_digits 2 0 r4;
  if (1 <=? y) && (1 <=? m) && (m <=? 12) && (1 <=? d)
     && (d <=? days_in_month y m)
  then
    let day_us := days_from_civil y m d * 86400 * 1000000 in
    match r5 with
    | EmptyString => Some {| dt_wall := day_us; dt_offset := None |}
    | String _ r6 =>
        '(secs, r7) ← parse_hms r6;
        off ← parse_offset r7;
        Some {| dt_wall := day_us + secs * 1000000; dt_offset := off |}
    end
  else None.

(** [sum] of floats, from left to right. *)
Definition sum (l : list float) : float := fold_left f_add l f_zero.

Definition hex_value (c : ascii) : option nat :=
  let n := nat_of_ascii c in
  if is_digit c then Some (n - 48)%nat
  else if (65 <=? n)%nat && (n <=? 70)%nat then Some (n - 55)%nat
  else if (97 <=? n)%nat && (n <=? 102)%nat then Some (n - 87)%nat
  else None.

Fixpoint decode_escapes (s : string) : string :=
  match s with
  | EmptyString => EmptyString
  | String c r =>
      match r with
      | String h (String l r') =>
          match Ascii.eqb c "%", hex_value h, hex_value l with
          | true, Some a, Some b =>
              String (ascii_of_nat (16 * a + b)) (decode_escapes r')
          | _, _, _ => String c (decode_escapes r)
          end
      | _ => String c (decode_escapes r)
      end
  end.

Definition unquote_ascii (s : string) : string :=
  if char_in "%" s then decode_escapes s else s.

(** Does the pattern match the text at its start? *)
Fixpoint match_here (pattern text : string) : bool :=
  match pattern, text with
  | EmptyString, _ => true
  | String p pattern', String c text' =>
      (Ascii.eqb p "." || Ascii.eqb p c) && match_here pattern' text'
  | String _ _, EmptyString => false
  end.

(** ... or anywhere in it? *)
Fixpoint ere_search (pattern text : string) : bool :=
  match_here pattern text ||
  match text with
  | EmptyString => false
  | String _ text' => ere_search pattern text'
  end.

#[global] Instance lib : PyLib := {|
  json_loads := loads;
  json_loads_bytes := loads;
  json_dump := fun v => (dumps v, None);
  fromisoformat := isoparse;
  py_sum := sum;
  unquote := unquote_ascii;
  unquote_plain := fun s H =>
    @eq_ind_r bool false
      (fun b : bool => (if b then decode_escapes s else s) = s)
      eq_refl (char_in "%" s) H;
  int_max_str_digits := 4300;
|}.

End Sample.

(** ** Worlds and documents used in the examples *)

Module Examples.
Import Sample.

Definition server_argv : list string :=
  ["python3"; "/opt/media-mirror/dashboard/server.py"].

(** No file, no other process; every command can be started, the
    commands of the probes fail and touch nothing, every path can be
    written and removed. *)
Definition quiet : World := {|
  fs := ∅;
  procs := ∅;
  self_pid := 900;
  self_pgid := 900;
  self_argv := server_argv;
  next_pid := 2;
  spawn_error := fun _ => None;
  command_output := fun _ => {| returncode := 1; stdout := EmptyString |};
  command_effect := fun _ files => files;
  pkill_selects := ere_search;
  write_error := fun _ => None;
  remove_error := fun _ => None;
  now_iso := "2024-01-01T12:00:00";
|}.

Definition with_file (path : string) (e : file_entry) (w : World) : World :=
  set_fs (<[path := e]> (fs w)) w.

Definition init_process : process := {|
  p_argv := ["/sbin/init"]; p_ours := false; p_pgid := 1;
  p_new_session := true; p_stdout := None; p_stderr := None;
|}.


Definition state_path : string := STATE_FILE default_settings.
Definition config_path : string := CONFIG_FILE default_settings.
Definition pid_path : string := pid_file default_settings.

(** A state document with no job at all. *)
Definition no_jobs_doc : pyval := PDict [("jobs", PList [])].

Definition no_jobs_world : World :=
  with_file state_path (Text (dumps no_jobs_doc)) quiet.

(** Two finished jobs that took 100 and 300 seconds, a skipped one and a
    queued one; the inventory counts ten sources, two already mirrored. *)
Definition job (status : string) (times : list (string * pyval)) : pyval :=
  PDict (("status", PStr status) :: times).

Definition eta_doc : pyval :=
  PDict [("jobs", PList [
            job "done" [("started", PStr "2024-01-01T00:00:00");
                        ("updated", PStr "2024-01-01T00:01:40")];
            job "done" [("started", PStr "2024-01-01T01:00:00");
                        ("updated", PStr "2024-01-01T01:05:00")];
            job "skipped" [];
            job "queued" []]);
         ("inventory", PDict [("source_total", PInt 10);
                              ("dest_done", PInt 2)])].

Definition eta_world : World :=
  with_file state_path (Text (dumps eta_doc)) quiet.

(** A finished job that carries no timestamps, and a queued one. *)
Definition untimed_jobs : list pyval := [job "done" []; job "queued" []].

Definition untimed_doc : pyval := PDict [("jobs", PList untimed_jobs)].

Definition untimed_world : World :=
  with_file state_path (Text (dumps untimed_doc)) quiet.

(** The state file exists but may not be read. *)
Definition locked_state_world : World :=
  with_file state_path (Unreadable EACCES) quiet.

(** The state file holds bytes that are not valid UTF-8. *)
Definition binary_state_world : World :=
  with_file state_path (Binary None) quiet.

(** The state file holds half a document. *)
Definition torn_state_world : World :=
  with_file state_path (Text "{") quiet.

(** Valid JSON without the keys the handlers index. *)
Definition bare_doc : pyval := PDict [("stats", PDict [])].

Definition bare_world : World :=
  with_file state_path (Text (dumps bare_doc)) quiet.

Definition worker (ours : bool) (pid : positive) : process := {|
  p_argv := ["/bin/bash"; worker_script default_settings]; p_ours := ours;
  p_pgid := pid; p_new_session := true; p_stdout := None; p_stderr := None;
|}.


(** The PID file names a worker of ours that is running. *)
Definition running_world : World :=
  set_procs {[4242%positive := worker true 4242]}
    (with_file pid_path (Text ("4242" +:+ str1 nl)) quiet).

(** The PID file names process 1, which exists and belongs to root. *)
Definition foreign_pid_world : World :=
  set_procs {[1%positive := init_process]}
    (with_file pid_path (Text "1") quiet).

(** A configuration file with a comment, a blank line and three keys. *)
Definition config_text : string :=
  "# media mirror" +:+ str1 nl +:+
  str1 nl +:+
  "SOURCE_MOVIES=" +:+ quoted "/mnt/movies" +:+ str1 nl +:+
  "TARGET_HEIGHT=720" +:+ str1 nl +:+
  "TARGET_HEIGHT=1080" +:+ str1 nl +:+
  "  DEST_HOST = 'backup' " +:+ str1 nl.

Definition config_world : World :=
  with_file config_path (Text config_text) quiet.

(** A value wrapped in two layers of quotes: [NAME="'x'"]. *)
Definition nested_quotes_value : string :=
  quoted (str1 squote +:+ "x" +:+ str1 squote).

Definition nested_quotes_world : World :=
  with_file config_path (Text ("NAME=" +:+ nested_quotes_value +:+ str1 nl)) quiet.

End Examples.

(** ** The POST handler *)

(** [str(v)] of a value, which may raise, and [str(e)] of an exception
    are the library's.  The one fact relied on is that the text of a
    string is the string itself. *)
Class PyText := {
  py_str : pyval -> result string;
  exn_str : exn -> string;
  py_str_of_str : forall s, py_str (PStr s) = Ok s;
}.

(** What [do_POST] reads of a request besides its path: the value of the
    [Content-Length] header, if there is one, and what
    [self.rfile.read(length)] does on the connection for each length:
    the bytes it returns, or the exception it raises. *)
Record post_request := {
  content_length : option string;
  rfile_read : Z -> result string;
}.

(** [s[:n]] *)
Fixpoint str_take (n : nat) (s : string) : string :=
  match n, s with
  | S n', String c r => String c (str_take n' r)
  | _, _ => EmptyString
  end.

(** [int(self.headers.get("Content-Length", 0))] *)
Definition post_length {lib : PyLib} (req : post_request) : result Z :=
  match content_length req with
  | None => Ok 0
  | Some h =>
      match py_int int_max_str_digits h with
      | Some n => Ok n
      | None => Raise ValueError
      end
  end.

(** [updates.items()] *)
Definition py_items (v : pyval) : result (dict pyval) :=
  match v with
  | PDict d => Ok d
  | _ => Raise AttributeError
  end.

(** The table of [do_POST] from the names of the API to the keys of the
    configuration file. *)
Definition key_map : dict string :=
  [("source_movies", "SOURCE_MOVIES");
   ("source_tv", "SOURCE_TV");
   ("dest_host", "DEST_HOST");
   ("dest_movies", "DEST_MOVIES");
   ("dest_tv", "DEST_TV");
   ("temp_dir", "TEMP_DIR");
   ("dest_ssh_key", "DEST_SSH_KEY");
   ("target_height", "TARGET_HEIGHT");
   ("ffmpeg_crf", "FFMPEG_CRF");
   ("ffmpeg_preset", "FFMPEG_PRESET");
   ("ffmpeg_threads", "FFMPEG_THREADS");
   ("rsync_bwlimit", "RSYNC_BWLIMIT");
   ("scan_interval", "SCAN_INTERVAL");
   ("dashboard_port", "DASHBOARD_PORT")].

(** [try: m  except Exception as e: handler(e)] *)
Definition try_except_as {A} (m : M A) (handler : exn -> M A) : M A :=
  fun w =>
    match m w with
    | (w', Ok a) => (w', Ok a)
    | (w', Raise e) => if is_killed e then (w', Raise e) else handler e w'
    end.

Section Post.
Context {lib : PyLib} {text : PyText} (env : Settings).

(** One turn of the loop that fills [mapped]. *)
Definition map_update (mapped : dict string) (kv : string * pyval)
  : result (dict string) :=
  let config_key := dict_get_default kv.1 kv.1 key_map in
  text ← py_str kv.2;
  mret (dict_set config_key text mapped).

(** The body of the [try] of [do_POST]. *)
Definition post_config (body : string) : M reply :=
  updates ← lift (json_loads_bytes body);
  items ← lift (py_items updates);
  mapped ← lift (fold_r map_update items []);
  _ ← write_config env mapped;
  mret (_json_response 200
          (PDict [("ok", PBool true);
                  ("updated", PList (map (fun kv => PStr kv.1) mapped))])).

(** [DashboardHandler.do_POST]; [path] is [parsed.path]. *)
Definition do_POST (path : string) (req : post_request) : M reply :=
  if String.eqb path "/api/config" then
    length ← lift (post_length req);
    body ← lift (rfile_read req length);
    try_except_as (post_config body)
      (fun e => mret (_json_response 400
                        (PDict [("ok", PBool false);
                                ("error", PStr (exn_str e))])))
  else mret (Reply 404 [] BodyEmpty).

End Post.

(** An instance for the examples: strings are their own text, the other
    values are written as the sample encoder writes them, and the message
    of an exception is the name of its class. *)
Module SampleText.

Definition str (v : pyval) : result string :=
  Ok match v with
     | PStr s => s
     | PNone => "None"
     | PBool true => "True"
     | PBool false => "False"
     | _ => Sample.dumps v
     end.

Definition message (e : exn) : string :=
  match e with
  | FileNotFoundError => "FileNotFoundError"
  | PermissionError => "PermissionError"
  | ProcessLookupError => "ProcessLookupError"
  | JSONDecodeError => "JSONDecodeError"
  | ValueError => "ValueError"
  | TypeError => "TypeError"
  | KeyError => "KeyError"
  | IndexError => "IndexError"
  | AttributeError => "AttributeError"
  | TimeoutExpired => "TimeoutExpired"
  | IsADirectoryError => "IsADirectoryError"
  | OSError => "OSError"
  | UnicodeDecodeError => "UnicodeDecodeError"
  | OverflowError => "OverflowError"
  | ZeroDivisionError => "ZeroDivisionError"
  | RecursionError => "RecursionError"
  | MemoryError => "MemoryError"
  | Killed => "Killed"
  end.

#[global] Instance text : PyText := {|
  py_str := str;
  exn_str := message;
  py_str_of_str := fun s => eq_refl;
|}.

End SampleText.


(** ** Vocabulary of the statements *)

(** The document is an object with a member [k]. *)
Definition has_key (k : string) (v : pyval) : Prop :=
  exists d x, v = PDict d /\ dict_get k d = Some x.

(** The document is an object whose member [k] is itself an object. *)
Definition has_object (k : string) (v : pyval) : Prop :=
  exists d r, v = PDict d /\ dict_get k d = Some (PDict r).

(** A computation that only looks at the world. *)
Definition readonly {A} (m : M A) : Prop := forall w, (m w).1 = w.

(** The commands whose behaviour is given by the world leave the files
    alone. *)
Definition commands_keep_files (w : World) : Prop :=
  forall argv files, command_effect w argv files = files.

(** A computation that changes nothing but files, and these only through
    such commands. *)
Definition files_only {A} (m : M A) : Prop :=
  forall w, (m w).1 = set_fs (fs (m w).1) w /\
            (commands_keep_files w -> (m w).1 = w).

(** The exceptions that [read_state] turns into the default document. *)
Definition state_handled : list exn := [FileNotFoundError; JSONDecodeError].

(** *** Disk probes *)

(** The fields of the second line of what [df -h] printed. *)
Definition df_fields (out : completed) : list string :=
  split_ws (nth 1 (split_on nl (py_strip (stdout out))) EmptyString).

(** The entry made of those fields. *)
Definition df_entry (mount_prefix : string) (parts : list string) : pyval :=
  PDict [("mount", PStr (mount_prefix +:+ default EmptyString (last parts)));
         ("size", PStr (nth 1 parts EmptyString));
         ("used", PStr (nth 2 parts EmptyString));
         ("avail", PStr (nth 3 parts EmptyString));
         ("pct", PStr (nth 4 parts EmptyString))].

(** The two commands that [get_disk_usage] runs. *)
Definition disk_command (argv : list string) : Prop :=
  (exists path, argv = ["df"; "-h"; path]) \/
  (exists key host command,
     argv = ["ssh"; "-i"; key; "-o"; "StrictHostKeyChecking=no";
             "-o"; "ConnectTimeout=3"; host; command]).

(** The world after such a command has been run: it is not run at all
    when one of its arguments holds a NUL character. *)
Definition after_command (argv : list string) (w : World) : World :=
  if has_nul argv then w else set_fs (command_effect w argv (fs w)) w.

(** The probe found the file system: the command could be run, ended
    with status 0, and the second line it printed has five fields or
    more. *)
Definition probe_succeeds (w : World) (argv : list string) : Prop :=
  has_nul argv = false /\
  spawn_error w argv = None /\
  returncode (command_output w argv) = 0 /\
  (5 <= length (df_fields (command_output w argv)))%nat.

(** The value of a configuration key; empty when it is not set. *)
Definition setting (config : dict string) (k : string) : string :=
  dict_get_default k EmptyString config.

(** The command of the probe of the destination. *)
Definition dest_argv (config : dict string) : list string :=
  ["ssh"; "-i"; setting config "DEST_SSH_KEY";
   "-o"; "StrictHostKeyChecking=no"; "-o"; "ConnectTimeout=3";
   setting config "DEST_HOST";
   "df -h '" +:+ setting config "DEST_MOVIES" +:+ "'"].

(** The local probe of [path] is made and finds the file system. *)
Definition local_probe_succeeds (w : World) (path : string) : Prop :=
  path <> EmptyString /\ probe_succeeds w ["df"; "-h"; path].

(** The probe of the destination is made and finds the file system. *)
Definition dest_probe_succeeds (w : World) (config : dict string) : Prop :=
  setting config "DEST_HOST" <> EmptyString /\
  setting config "DEST_SSH_KEY" <> EmptyString /\
  setting config "DEST_MOVIES" <> EmptyString /\
  probe_succeeds w (dest_argv config).

(** What one step of [get_disk_usage] does to the entries: under [label]
    it sets an entry when [P] holds, and otherwise changes nothing. *)
Definition probe_step (P : Prop) (label : string) (disks disks' : dict pyval)
  : Prop :=
  (P /\ exists entry, disks' = dict_set label entry disks) \/
  (~ P /\ disks' = disks).

(** The world that the probes of [get_disk_usage] leave behind. *)
Definition after_probes {lib : PyLib} (env : Settings) (w : World) : World :=
  (get_disk_usage env w).1.

(** The file that [/api/log/...] hands to [tail]. *)
Definition log_file {lib : PyLib} (env : Settings) (name : string) : string :=
  path_join (LOG_DIR env) (unquote name).

(** *** Configuration lines *)

Fixpoint all_chars (p : ascii -> bool) (s : string) : bool :=
  match s with
  | EmptyString => true
  | String c r => p c && all_chars p r
  end.

Definition first_char (s : string) : option ascii :=
  match s with EmptyString => None | String c _ => Some c end.

Fixpoint last_char (s : string) : option ascii :=
  match s with
  | EmptyString => None
  | String c EmptyString => Some c
  | String _ r => last_char r
  end.

Fixpoint drop_last (s : string) : string :=
  match s with
  | EmptyString => EmptyString
  | String c EmptyString => EmptyString
  | String c r => String c (drop_last r)
  end.

(** [u] is [v] without the characters of the set at its two ends: what
    was removed are such characters only, and none is left at either end. *)
Definition stripped_of (drop : ascii -> bool) (v u : string) : Prop :=
  exists pre suf,
    v = pre +:+ u +:+ suf /\
    all_chars drop pre = true /\ all_chars drop suf = true /\
    (forall c, first_char u = Some c -> drop c = false) /\
    (forall c, last_char u = Some c -> drop c = false).

Definition is_dquote (c : ascii) : bool := char_in c (str1 dquote).
Definition is_squote (c : ascii) : bool := char_in c (str1 squote).

(** The line reads [key=value]: the key is the text before the first
    [=], the line is not a comment, and [k], [v] are the key and the value
    as the store records them. *)
Definition sets_key (line k v : string) : Prop :=
  exists k0 v0,
    py_strip line = k0 +:+ String "=" v0 /\
    char_in "=" k0 = false /\
    startswith "#" k0 = false /\
    k = py_strip k0 /\
    v = config_value (py_strip v0).

(** A blank line or a comment. *)
Definition ignored_line (line : string) : Prop :=
  is_empty (py_strip line) = true \/ startswith "#" (py_strip line) = true.

(** The last line of [lines] that sets [k] sets it to [v]. *)
Definition last_setting (lines : list string) (k v : string) : Prop :=
  exists before line after,
    lines = before ++ line :: after /\
    sets_key line k v /\
    forall l v', In l after -> ~ sets_key l k v'.

(** The reading of the specification: a value that begins and ends with
    the same quote character loses that one pair, any other value is
    left alone. *)
Definition strip_one_quote_layer (v : string) : string :=
  match v with
  | String c r =>
      if (is_dquote c || is_squote c)
         && match last_char r with Some d => Ascii.eqb c d | None => false end
      then drop_last r else v
  | EmptyString => EmptyString
  end.

(** The lines that the readers of a text file see: those of its text
    with the line ends translated. *)
Definition text_lines (t : string) : list string :=
  readlines (universal_newlines t).

(** The world with the configuration file set to [text]. *)
Definition with_config (env : Settings) (text : string) (w : World) : World :=
  set_fs (<[CONFIG_FILE env := Text text]> (fs w)) w.

(** *** The supervisor *)

(** The PID file holds a text that [int] reads as [n]. *)
Definition pid_recorded {lib : PyLib} (env : Settings) (w : World) (n : Z)
  : Prop :=
  exists t, fs w !! pid_file env = Some (Text t) /\
            py_int int_max_str_digits (py_strip (universal_newlines t))
            = Some n.

(** The PID file gives no number, in one of the ways that the probe
    takes for "not running": there is no file, it may not be read, its
    bytes do not decode, or its text is not an integer. *)
Definition pid_unusable {lib : PyLib} (env : Settings) (w : World) : Prop :=
  fs w !! pid_file env = None \/
  fs w !! pid_file env = Some (Unreadable EACCES) \/
  (exists tail, fs w !! pid_file env = Some (Binary tail)) \/
  (exists t, fs w !! pid_file env = Some (Text t) /\
             py_int int_max_str_digits (py_strip (universal_newlines t))
             = None).

(** [n] is the id of a process in the process table. *)
Definition process_exists (w : World) (n : Z) : Prop :=
  exists p pr, n = Z.pos p /\ procs w !! p = Some pr.

(** The process [p] is one of those that a signal sent to [n] addresses:
    the process [n] when [n] is positive, the group of the server for 0,
    every process but the first for -1, and the group [- n] below that. *)
Definition addresses (w : World) (n : Z) (p : positive) (pr : process)
  : Prop :=
  procs w !! p = Some pr /\
  ((0 < n /\ Z.pos p = n) \/
   (n = 0 /\ p_pgid pr = self_pgid w) \/
   (n = -1 /\ p <> 1%positive) \/
   (n < -1 /\ Z.pos (p_pgid pr) = - n)).

(** The server itself is one of them; -1 never addresses the caller. *)
Definition addresses_server (w : World) (n : Z) : Prop :=
  (0 < n /\ Z.pos (self_pid w) = n) \/
  n = 0 \/
  (n < -1 /\ Z.pos (self_pgid w) = - n).

(** The system call [kill(n, sig)] succeeds: [n] is a C [int] above the
    least one, and the signal reaches the server itself or a process that
    the server may signal; for -1 it is enough that a process is
    addressed. *)
Definition signal_reaches (w : World) (n : Z) : Prop :=
  int_min < n <= int_max /\
  (addresses_server w n \/
   exists p pr, addresses w n p pr /\ (p_ours pr = true \/ n = -1)).

(** The exception that [os.kill(n, sig)] raises in this world, if any. *)
Definition kill_error (w : World) (n : Z) : option exn :=
  if (n <? int_min) || (int_max <? n) then Some OverflowError
  else if n =? int_min then Some ProcessLookupError
  else if negb (kill_targets_self w n) && is_empty_map (targets w n)
  then Some ProcessLookupError
  else if negb (kill_targets_self w n) && negb (n =? -1)
          && is_empty_map (ours (targets w n))
  then Some PermissionError
  else None.

Definition pkill_argv (env : Settings) : list string :=
  ["pkill"; "-9"; "-f"; worker_script env].


Definition log_out (env : Settings) : string :=
  path_join (LOG_DIR env) "runner-stdout.log".

Definition log_err (env : Settings) : string :=
  path_join (LOG_DIR env) "runner-stderr.log".


Definition started (pid : Z) : pyval :=
  PDict [("ok", PBool true); ("pid", PInt pid)].



(** *** Stopping *)

(** [pkill] is run: none of its arguments holds a NUL character and it
    can be started. *)
Definition pkill_runs (env : Settings) (w : World) : bool :=
  negb (has_nul (pkill_argv env)) &&
  match spawn_error w (pkill_argv env) with
  | None => true
  | Some _ => false
  end.

(** The world after the [pkill] of [stop_runner]. *)
Definition after_pkill (env : Settings) (w : World) : World :=
  if pkill_runs env w then
    set_procs
      (filter (fun kv : positive * process =>
                 pkill_hit w (worker_script env) kv.2 = false) (procs w)) w
  else w.




(** *** Starting *)



(** *** The status snapshot *)

(** The jobs of a state document, in document order. *)
Definition status_jobs (state : pyval) : result (list pyval) :=
  jobs ← py_getitem state "jobs";
  py_iter jobs.

(** Every job is an object with a ["status"] member. *)
Definition jobs_have_status (jobs : list pyval) : Prop :=
  forall j, In j jobs -> has_key "status" j.

(** The job is done and carries both timestamps, each a string that
    [fromisoformat] accepts. *)
Definition timed_done {lib : PyLib} (j : pyval) : Prop :=
  py_getitem j "status" = Ok (PStr "done") /\
  exists s u ds du,
    py_getitem j "started" = Ok (PStr s) /\
    py_getitem j "updated" = Ok (PStr u) /\
    fromisoformat s = Some ds /\ fromisoformat u = Some du.

(** [t] is [updated - started] of the job, in seconds. *)
Definition elapsed {lib : PyLib} (j : pyval) (t : float) : Prop :=
  exists s u ds du,
    py_getitem j "started" = Ok (PStr s) /\
    py_getitem j "updated" = Ok (PStr u) /\
    fromisoformat s = Some ds /\ fromisoformat u = Some du /\
    dt_sub_seconds du ds = Ok t.

(** A fully populated [eta]. *)
Definition eta_dict (avg_per_file_secs : Z)
  (source_total completed remaining : pyval) (hours days : float) : pyval :=
  PDict [("avg_per_file_secs", PInt avg_per_file_secs);
         ("source_total", source_total);
         ("completed", completed);
         ("remaining", remaining);
         ("est_remaining_hours", PFloat hours);
         ("est_remaining_days", PFloat days)].

Definition fully_populated (eta : pyval) : Prop :=
  exists secs source_total completed remaining hours days,
    eta = eta_dict secs source_total completed remaining hours days.




(** ** Further worlds and requests used in the examples *)

Module Scenes.
Import Sample Examples.

(** A configuration file with DOS line ends. *)
Definition crlf_text : string :=
  "A=1" +:+ str1 cr +:+ str1 nl +:+ "B=2" +:+ str1 cr +:+ str1 nl.

Definition crlf_world : World := with_file config_path (Text crlf_text) quiet.

(** A value followed by a no-break space, on a line that ends with a
    lone carriage return. *)
Definition nbsp : ascii := "160"%char.

Definition nbsp_text : string :=
  "KEY=val" +:+ str1 nbsp +:+ str1 cr +:+ "NEXT=1".

Definition nbsp_world : World := with_file config_path (Text nbsp_text) quiet.

(** The PID file holds [0], and no other process is running. *)
Definition zero_pid_world : World := with_file pid_path (Text "0") quiet.

(** The PID file holds [-1]; process 1 and two workers are running, one
    of them started by another user. *)
Definition minus_one_world : World :=
  set_procs {[1%positive := init_process;
              50%positive := worker true 50;
              77%positive := worker false 77]}
    (with_file pid_path (Text "-1") quiet).

(** The PID file holds a number that does not fit a C [int]. *)
Definition huge_pid_world : World :=
  with_file pid_path (Text "2147483648") quiet.



End Scenes.

(** * Properties *)

(** [simpl] may unfold the concatenation of strings again. *)
#[local] Arguments String.append : simpl nomatch.

(** ** Running the monads *)

Ltac unfold_monad :=
  unfold mbind, mret, M_bind, M_ret, result_bind, result_ret,
         lift, raise, try_except, try_except_all, try_pure in *.

Lemma bind_ok_inv {A B} (m : M A) (f : A -> M B) w w' b :
  (m ≫= f) w = (w', Ok b) ->
  exists w1 a, m w = (w1, Ok a) /\ f a w1 = (w', Ok b).
Proof.
  unfold_monad. destruct (m w) as [w1 [a|e]]; intros H.
  - exists w1, a. split; [reflexivity | exact H].
  - discriminate.
Qed.



Lemma rbind_ok_inv {A B} (m : result A) (f : A -> result B) b :
  m ≫= f = Ok b -> exists a, m = Ok a /\ f a = Ok b.
Proof.
  unfold_monad. destruct m as [a|e]; intros H; [eauto | discriminate].
Qed.

Lemma set_fs_same w : set_fs (fs w) w = w.
Proof. destruct w; reflexivity. Qed.

Lemma set_procs_same w : set_procs (procs w) w = w.
Proof. destruct w; reflexivity. Qed.

Lemma set_fs_set_fs f g w : set_fs f (set_fs g w) = set_fs f w.
Proof. reflexivity. Qed.

Lemma set_procs_set_procs p q w : set_procs p (set_procs q w) = set_procs p w.
Proof. reflexivity. Qed.

(** ** The state reader *)

Section StateReader.
Context {lib : PyLib} (env : Settings).

Lemma read_state_absent w :
  fs w !! STATE_FILE env = None ->
  read_state env w = (w, Ok default_state).
Proof.
  intros H. unfold read_state, open_read. unfold_monad. rewrite H. reflexivity.
Qed.

Lemma read_state_text w t :
  fs w !! STATE_FILE env = Some (Text t) ->
  read_state env w =
  (w, match json_loads (universal_newlines t) with
      | Ok doc => Ok doc
      | Raise e => if caught state_handled e then Ok default_state else Raise e
      end).
Proof.
  intros H. unfold read_state, open_read. unfold_monad. rewrite H.
  fold state_handled.
  destruct (json_loads (universal_newlines t)) as [doc|e]; [reflexivity|].
  destruct (caught state_handled e); reflexivity.
Qed.

Lemma read_state_malformed w t :
  fs w !! STATE_FILE env = Some (Text t) ->
  json_loads (universal_newlines t) = Raise JSONDecodeError ->
  read_state env w = (w, Ok default_state).
Proof. intros H Hj. rewrite (read_state_text w t H), Hj. reflexivity. Qed.

Lemma read_state_unreadable w e :
  fs w !! STATE_FILE env = Some (Unreadable e) ->
  read_state env w = (w, Raise (os_exn e)).
Proof.
  intros H. unfold read_state, open_read. unfold_monad. rewrite H.
  destruct e; reflexivity.
Qed.

Lemma read_state_binary w tail :
  fs w !! STATE_FILE env = Some (Binary tail) ->
  read_state env w = (w, Raise UnicodeDecodeError).
Proof.
  intros H. unfold read_state, open_read. unfold_monad. rewrite H. reflexivity.
Qed.

Lemma read_state_valid w t doc :
  fs w !! STATE_FILE env = Some (Text t) ->
  json_loads (universal_newlines t) = Ok doc ->
  read_state env w = (w, Ok doc).
Proof. intros H Hj. rewrite (read_state_text w t H), Hj. reflexivity. Qed.

(** The reader only looks: whatever it returns, the world is as before. *)
Lemma read_state_pure w : (read_state env w).1 = w.
Proof.
  destruct (fs w !! STATE_FILE env) as [[e|tail|t]|] eqn:E.
  - rewrite (read_state_unreadable w e E). reflexivity.
  - rewrite (read_state_binary w tail E). reflexivity.
  - rewrite (read_state_text w t E). reflexivity.
  - rewrite (read_state_absent w E). reflexivity.
Qed.

(** C2, as the code has it: a state file that is absent, or whose text
    the decoder refuses with [JSONDecodeError], makes [read_state] return
    the default empty document, and nothing is raised.  Nothing else is
    covered by the substitution: a file that exists but cannot be opened
    or read raises the error of the system, a file whose bytes are not
    valid UTF-8 raises [UnicodeDecodeError], and any other exception of
    the decoder ([RecursionError] for too deep a nesting, [ValueError]
    for too long a number) reaches the caller as it is.  The world is
    never changed. *)
Theorem read_state_default_substitution (w : World) :
  (fs w !! STATE_FILE env = None ->
   read_state env w = (w, Ok default_state)) /\
  (forall t e, fs w !! STATE_FILE env = Some (Text t) ->
   json_loads (universal_newlines t) = Raise e ->
   caught state_handled e = true ->
   read_state env w = (w, Ok default_state)) /\
  (caught state_handled JSONDecodeError = true /\
   caught state_handled UnicodeDecodeError = false /\
   caught state_handled RecursionError = false /\
   caught state_handled ValueError = false) /\
  (forall e, fs w !! STATE_FILE env = Some (Unreadable e) ->
   read_state env w = (w, Raise (os_exn e))) /\
  (forall tail, fs w !! STATE_FILE env = Some (Binary tail) ->
   read_state env w = (w, Raise UnicodeDecodeError)) /\
  (forall t e, fs w !! STATE_FILE env = Some (Text t) ->
   json_loads (universal_newlines t) = Raise e ->
   caught state_handled e = false ->
   read_state env w = (w, Raise e)) /\
  (forall t doc, fs w !! STATE_FILE env = Some (Text t) ->
   json_loads (universal_newlines t) = Ok doc ->
   read_state env w = (w, Ok doc)).
Proof.
  split; [apply read_state_absent|].
  split.
  { intros t e H Hj He. rewrite (read_state_text w t H), Hj, He. reflexivity. }
  split; [repeat split|].
  split; [intros e; apply read_state_unreadable|].
  split; [intros tail; apply read_state_binary|].
  split; [|intros t doc; apply read_state_valid].
  intros t e H Hj He. rewrite (read_state_text w t H), Hj, He. reflexivity.
Qed.

End StateReader.

(** C2 as stated fails: the state file exists, reading it is denied, and
    [read_state] raises [PermissionError] instead of returning the
    default document. *)
Lemma read_state_unreadable_counterexample :
  fs Examples.locked_state_world !! STATE_FILE default_settings
    = Some (Unreadable EACCES) /\
  read_state default_settings Examples.locked_state_world
    = (Examples.locked_state_world, Raise PermissionError) /\
  read_state default_settings Examples.locked_state_world
    <> (Examples.locked_state_world, Ok default_state).
Proof.
  split; [reflexivity|]. split; [reflexivity | discriminate].
Qed.

Lemma read_state_default_substitution_witness :
  read_state default_settings Examples.quiet
    = (Examples.quiet, Ok default_state) /\
  read_state default_settings Examples.torn_state_world
    = (Examples.torn_state_world, Ok default_state) /\
  read_state default_settings Examples.locked_state_world
    = (Examples.locked_state_world, Raise PermissionError) /\
  read_state default_settings Examples.binary_state_world
    = (Examples.binary_state_world, Raise UnicodeDecodeError).
Proof.
  split; [|split; [|split]].
  - apply (read_state_default_substitution default_settings Examples.quiet).
    reflexivity.
  - apply (proj1 (proj2 (read_state_default_substitution default_settings
                           Examples.torn_state_world)) "{" JSONDecodeError);
      reflexivity.
  - apply (proj1 (proj2 (proj2 (proj2 (read_state_default_substitution
                                         default_settings
                                         Examples.locked_state_world))))
             EACCES).
    reflexivity.
  - apply (proj1 (proj2 (proj2 (proj2 (proj2
                   (read_state_default_substitution
                      default_settings Examples.binary_state_world)))))
             None).
    reflexivity.
Defined.

(** ** Computations that only look *)

Lemma readonly_ret {A} (a : A) : readonly (mret a).
Proof. intros w. reflexivity. Qed.

Lemma readonly_lift {A} (r : result A) : readonly (lift r).
Proof. intros w. reflexivity. Qed.

Lemma readonly_raise {A} e : readonly (@raise A e).
Proof. intros w. reflexivity. Qed.

Lemma readonly_bind {A B} (m : M A) (f : A -> M B) :
  readonly m -> (forall a, readonly (f a)) -> readonly (m ≫= f).
Proof.
  intros Hm Hf w. unfold_monad. specialize (Hm w).
  destruct (m w) as [w1 [a|e]]; simpl in *; subst; [apply Hf | reflexivity].
Qed.

Lemma readonly_try_except {A} (m h : M A) classes :
  readonly m -> readonly h -> readonly (try_except m classes h).
Proof.
  intros Hm Hh w. unfold_monad. specialize (Hm w).
  destruct (m w) as [w1 [a|e]]; simpl in *; subst; [reflexivity|].
  destruct (caught classes e); [apply Hh | reflexivity].
Qed.

Lemma readonly_try_except_all {A} (m h : M A) :
  readonly m -> readonly h -> readonly (try_except_all m h).
Proof.
  intros Hm Hh w. unfold_monad. specialize (Hm w).
  destruct (m w) as [w1 [a|e]]; simpl in *; subst; [reflexivity|].
  destruct (is_killed e); [reflexivity | apply Hh].
Qed.

Lemma readonly_open_read path : readonly (open_read path).
Proof.
  intros w. unfold open_read.
  destruct (fs w !! path) as [[e|tail|t]|]; reflexivity.
Qed.

Lemma readonly_os_kill_probe pid : readonly (os_kill pid SIG0).
Proof.
  intros w. unfold os_kill.
  destruct (_ || _); [reflexivity|].
  destruct (pid =? int_min); [reflexivity|].
  destruct (_ && _); [reflexivity|].
  destruct (_ && _); reflexivity.
Qed.

Lemma readonly_now : readonly datetime_now_isoformat.
Proof. intros w. reflexivity. Qed.

(** A computation that only looks either returns or raises, in the
    world it started from. *)
Lemma readonly_run {A} (m : M A) w :
  readonly m -> exists r, m w = (w, r).
Proof.
  intros H. specialize (H w). destruct (m w) as [w1 r]; simpl in H; subst.
  eauto.
Qed.

Create HintDb readonly.

#[local] Hint Resolve readonly_ret readonly_lift readonly_raise
  readonly_open_read readonly_os_kill_probe readonly_now : readonly.

Ltac readonly_steps :=
  repeat first
    [ apply readonly_bind; [|intros ?]
    | apply readonly_try_except
    | apply readonly_try_except_all
    | solve [auto with readonly] ].

(** [tail] only reads, when its last argument is taken as a file. *)
Lemma readonly_tail file :
  startswith "-" file = false ->
  readonly (subprocess_run ["tail"; "-50"; file]).
Proof.
  intros H w. unfold subprocess_run. rewrite H.
  destruct (has_nul _); [reflexivity|].
  destruct (spawn_error w _); reflexivity.
Qed.

(** ** Computations that change files only *)

Lemma files_only_readonly {A} (m : M A) : readonly m -> files_only m.
Proof.
  intros H w. rewrite (H w). split; [symmetry; apply set_fs_same | reflexivity].
Qed.

Lemma files_only_bind {A B} (m : M A) (f : A -> M B) :
  files_only m -> (forall a, files_only (f a)) -> files_only (m ≫= f).
Proof.
  intros Hm Hf w. unfold_monad. destruct (Hm w) as [H1 H2].
  destruct (m w) as [w1 [a|e]]; simpl in *; [|auto].
  destruct (Hf a w1) as [H3 H4]. split.
  - rewrite H3 at 1. rewrite H1. reflexivity.
  - intros Hk. specialize (H2 Hk). subst w1. apply H4, Hk.
Qed.

Lemma files_only_try_except_all {A} (m h : M A) :
  files_only m -> files_only h -> files_only (try_except_all m h).
Proof.
  intros Hm Hh w. unfold_monad. destruct (Hm w) as [H1 H2].
  destruct (m w) as [w1 [a|e]]; simpl in *; [auto|].
  destruct (is_killed e); simpl; [auto|].
  destruct (Hh w1) as [H3 H4]. split.
  - rewrite H3 at 1. rewrite H1. reflexivity.
  - intros Hk. specialize (H2 Hk). subst w1. apply H4, Hk.
Qed.

Lemma subprocess_run_disk_command argv w :
  disk_command argv ->
  subprocess_run argv w =
  if has_nul argv then (w, Raise ValueError)
  else (after_command argv w,
        match spawn_error w argv with
        | Some e => Raise (run_exn e)
        | None => Ok (command_output w argv)
        end).
Proof.
  unfold subprocess_run, run_other, after_command.
  intros [(path & ->) | (key & host & command & ->)];
    destruct (has_nul _); try reflexivity;
    destruct (spawn_error w _); reflexivity.
Qed.

Lemma after_command_frame argv w :
  after_command argv w = set_fs (fs (after_command argv w)) w /\
  (commands_keep_files w -> after_command argv w = w).
Proof.
  unfold after_command. destruct (has_nul argv).
  - split; [symmetry; apply set_fs_same | reflexivity].
  - split; [reflexivity|]. intros Hk. rewrite Hk. apply set_fs_same.
Qed.

Lemma files_only_disk_command argv :
  disk_command argv -> files_only (subprocess_run argv).
Proof.
  intros Hcmd w. rewrite (subprocess_run_disk_command argv w Hcmd).
  destruct (has_nul argv) eqn:Hn.
  - split; [symmetry; apply set_fs_same | reflexivity].
  - simpl. apply after_command_frame.
Qed.

Section Readers.
Context {lib : PyLib} (env : Settings).

Lemma readonly_read_state : readonly (read_state env).
Proof. intros w. apply read_state_pure. Qed.

Lemma readonly_read_config : readonly (read_config env).
Proof. unfold read_config. readonly_steps. Qed.

Lemma readonly_get_runner_pid : readonly (get_runner_pid env).
Proof.
  unfold get_runner_pid. readonly_steps.
  destruct (py_int _ _); auto with readonly.
Qed.

Lemma files_only_probe_disk label prefix argv disks :
  disk_command argv -> files_only (probe_disk label prefix argv disks).
Proof.
  intros H. unfold probe_disk.
  apply files_only_try_except_all;
    [|apply files_only_readonly, readonly_ret].
  apply files_only_bind; [apply files_only_disk_command, H | intros result].
  apply files_only_readonly.
  destruct (returncode result =? 0); [|auto with readonly].
  destruct (1 <? _)%nat; readonly_steps.
Qed.

Lemma files_only_probe_local disks lp : files_only (probe_local disks lp).
Proof.
  destruct lp as [label path]. unfold probe_local.
  destruct (is_empty path); [apply files_only_readonly, readonly_ret|].
  apply files_only_probe_disk. left. eexists. reflexivity.
Qed.

Lemma files_only_get_disk_usage : files_only (get_disk_usage env).
Proof.
  unfold get_disk_usage.
  apply files_only_bind;
    [apply files_only_readonly, readonly_read_config | intros config].
  apply files_only_bind; [apply files_only_probe_local | intros d1].
  apply files_only_bind; [apply files_only_probe_local | intros d2].
  destruct (_ && _); [|apply files_only_readonly, readonly_ret].
  apply files_only_probe_disk. right. do 3 eexists. reflexivity.
Qed.

(** The probes touch nothing but files, and no file when the commands
    leave the files alone. *)
Lemma after_probes_frame w :
  after_probes env w = set_fs (fs (after_probes env w)) w /\
  (commands_keep_files w -> after_probes env w = w).
Proof. apply files_only_get_disk_usage. Qed.

End Readers.

(** ** Documents that lack a key the handlers index *)

Lemma getitem_raises (doc : pyval) k :
  ~ has_key k doc -> exists e, py_getitem doc k = Raise e.
Proof.
  intros H. destruct doc; simpl; eauto.
  destruct (dict_get k d) as [x|] eqn:E; [|eauto].
  exfalso. apply H. exists d, x. auto.
Qed.

Lemma runner_update_raises (doc : pyval) b :
  ~ has_object "runner" doc ->
  exists e, (runner ← py_getitem doc "runner";
             py_setitem runner "paused" (PBool b)) = Raise e.
Proof.
  intros H. destruct doc; simpl; eauto.
  destruct (dict_get "runner" d) as [x|] eqn:E; simpl; [|eauto].
  destruct x; simpl; eauto.
  exfalso. apply H. exists d, d0. auto.
Qed.

Section MissingKeys.
Context {lib : PyLib} (env : Settings).

Lemma get_disk_usage_after w :
  exists r, get_disk_usage env w = (after_probes env w, r).
Proof.
  unfold after_probes. destruct (get_disk_usage env w) as [w1 r]. eauto.
Qed.

Lemma after_probes_config_raises w e :
  read_config env w = (w, Raise e) -> after_probes env w = w.
Proof.
  intros H. unfold after_probes, get_disk_usage. unfold_monad.
  rewrite H. reflexivity.
Qed.

Lemma status_raises_without_jobs w doc :
  read_state env w = (w, Ok doc) -> ~ has_key "jobs" doc ->
  exists e, do_GET env "/api/status" w = (after_probes env w, Raise e).
Proof.
  intros Hread Hjobs.
  destruct (getitem_raises doc "jobs" Hjobs) as [e He].
  destruct (readonly_run (read_config env) w (readonly_read_config env))
    as [rc Hrc].
  destruct (get_disk_usage_after w) as [rd Hrd].
  change (do_GET env "/api/status")
    with (response ← api_status env; mret (_json_response 200 response)).
  unfold api_status, select_jobs. unfold_monad.
  rewrite Hread, Hrc. destruct rc as [config|e1].
  - rewrite Hrd. destruct rd as [disks|e2]; [|eauto].
    rewrite He. eauto.
  - rewrite (after_probes_config_raises w e1 Hrc). eauto.
Qed.

Lemma set_paused_raises_without_runner w doc b :
  read_state env w = (w, Ok doc) -> ~ has_object "runner" doc ->
  exists e, api_set_paused env b w = (w, Raise e).
Proof.
  intros Hread Hrunner.
  destruct (runner_update_raises doc b Hrunner) as [e He].
  unfold api_set_paused. unfold_monad. rewrite Hread.
  destruct (py_getitem doc "runner") as [runner|e1]; [|eauto].
  simpl in He. rewrite He. eauto.
Qed.

(** C10: the default document stands in only for an absent or undecodable
    state file: when [read_state] returns it, the file is absent, or the
    decoder refuses its text with an exception that [read_state] handles,
    or its text is that very document.  When the file holds valid JSON,
    [read_state] returns the decoded document as it is, and a handler
    that indexes a key the document lacks raises: [/api/status] when
    there is no ["jobs"] member, [/api/pause] and [/api/resume] when
    there is no ["runner"] object.  The exception is not caught and no
    response is produced.  Pause and resume leave the world as it was;
    the status route has by then run the disk probes, which change
    nothing but files, and no file when the commands they run leave the
    files alone. *)
Theorem missing_key_raises (w : World) :
  (read_state env w = (w, Ok default_state) ->
   fs w !! STATE_FILE env = None \/
   exists t, fs w !! STATE_FILE env = Some (Text t) /\
             ((exists e, json_loads (universal_newlines t) = Raise e /\
                         caught state_handled e = true) \/
              json_loads (universal_newlines t) = Ok default_state)) /\
  (forall t doc,
     fs w !! STATE_FILE env = Some (Text t) ->
     json_loads (universal_newlines t) = Ok doc ->
     read_state env w = (w, Ok doc) /\
     (~ has_key "jobs" doc ->
      exists e w', do_GET env "/api/status" w = (w', Raise e) /\
                   w' = set_fs (fs w') w /\
                   (commands_keep_files w -> w' = w)) /\
     (~ has_object "runner" doc ->
      (exists e, do_GET env "/api/pause" w = (w, Raise e)) /\
      (exists e, do_GET env "/api/resume" w = (w, Raise e)))).
Proof.
  split.
  - destruct (fs w !! STATE_FILE env) as [[e|tail|t]|] eqn:Hfile; [| | |auto].
    + rewrite (read_state_unreadable env w e Hfile). destruct e; discriminate.
    + rewrite (read_state_binary env w tail Hfile). discriminate.
    + intros Hread. right. exists t. split; [reflexivity|].
      rewrite (read_state_text env w t Hfile) in Hread.
      destruct (json_loads (universal_newlines t)) as [doc|e] eqn:Hjson.
      * injection Hread as ->. auto.
      * destruct (caught state_handled e) eqn:He; [|discriminate].
        left. exists e. auto.
  - intros t doc Hfile Hjson.
    pose proof (read_state_valid env w t doc Hfile Hjson) as Hread.
    split; [exact Hread|]. split.
    + intros Hjobs.
      destruct (status_raises_without_jobs w doc Hread Hjobs) as [e He].
      exists e, (after_probes env w). split; [exact He|].
      apply after_probes_frame.
    + intros Hrunner. split.
      * change (do_GET env "/api/pause") with (api_set_paused env true).
        apply (set_paused_raises_without_runner w doc); assumption.
      * change (do_GET env "/api/resume") with (api_set_paused env false).
        apply (set_paused_raises_without_runner w doc); assumption.
Qed.

End MissingKeys.

Lemma missing_key_raises_witness :
  read_state default_settings Examples.bare_world
    = (Examples.bare_world, Ok Examples.bare_doc) /\
  (exists e, do_GET default_settings "/api/status" Examples.bare_world
               = (Examples.bare_world, Raise e)) /\
  (exists e, do_GET default_settings "/api/pause" Examples.bare_world
               = (Examples.bare_world, Raise e)) /\
  (exists e, do_GET default_settings "/api/resume" Examples.bare_world
               = (Examples.bare_world, Raise e)).
Proof.
  assert (Hfile : fs Examples.bare_world !! STATE_FILE default_settings
                  = Some (Text (Sample.dumps Examples.bare_doc)))
    by reflexivity.
  assert (Hjson : json_loads
                    (universal_newlines (Sample.dumps Examples.bare_doc))
                  = Ok Examples.bare_doc) by reflexivity.
  assert (Hjobs : ~ has_key "jobs" Examples.bare_doc).
  { intros (d & x & Hd & Hx). injection Hd as <-. discriminate Hx. }
  assert (Hrunner : ~ has_object "runner" Examples.bare_doc).
  { intros (d & r & Hd & Hr). injection Hd as <-. discriminate Hr. }
  destruct (proj2 (missing_key_raises default_settings Examples.bare_world)
              _ _ Hfile Hjson) as (H1 & H2 & H3).
  split; [exact H1|]. split; [|exact (H3 Hrunner)].
  destruct (H2 Hjobs) as (e & w' & Hrun & _ & Hkeep).
  exists e. rewrite Hrun, Hkeep; [reflexivity|].
  intros argv files. reflexivity.
Defined.

(** ** The configuration store: writing *)

Lemma writelines_readlines (t : string) : writelines (readlines t) = t.
Proof.
  induction t as [|c r IH]; [reflexivity|].
  simpl. destruct (Ascii.eqb c nl).
  - simpl. f_equal. exact IH.
  - destruct (readlines r) as [|l ls]; rewrite <- IH; reflexivity.
Qed.

Lemma char_in_cons c d r : char_in c (String d r) = Ascii.eqb c d || char_in c r.
Proof. reflexivity. Qed.

Lemma universal_newlines_cons c r :
  Ascii.eqb c cr = false ->
  universal_newlines (String c r) = String c (universal_newlines r).
Proof. intros H. cbn [universal_newlines]. rewrite H. reflexivity. Qed.

Lemma universal_newlines_no_cr (t : string) :
  char_in cr t = false -> universal_newlines t = t.
Proof.
  induction t as [|c r IH]; [reflexivity|].
  rewrite char_in_cons, (Ascii.eqb_sym cr c). intros H.
  apply orb_false_iff in H as [Hc Hr].
  rewrite (universal_newlines_cons c r Hc), (IH Hr). reflexivity.
Qed.

Lemma universal_newlines_has_no_cr (t : string) :
  char_in cr (universal_newlines t) = false.
Proof.
  assert (H : forall n t, (String.length t <= n)%nat ->
                          char_in cr (universal_newlines t) = false).
  { clear t. induction n as [|n IH]; intros [|c r] Hlen;
      try reflexivity; simpl in Hlen; [lia|].
    destruct (Ascii.eqb c cr) eqn:E.
    - cbn [universal_newlines]. rewrite E.
      destruct r as [|d r']; [reflexivity|].
      simpl in Hlen.
      destruct (Ascii.eqb d nl); rewrite char_in_cons;
        (rewrite IH; [reflexivity | simpl; lia]).
    - rewrite (universal_newlines_cons c r E), char_in_cons,
        (Ascii.eqb_sym cr c), E.
      apply IH. lia. }
  apply (H (String.length t)). lia.
Qed.

Lemma patch_line_no_updates acc line :
  patch_line [] acc line = (acc.1 ++ [line], acc.2).
Proof.
  destruct acc as [new_lines updated_keys]. unfold patch_line. simpl.
  destruct (is_key_line (py_strip line)); reflexivity.
Qed.

Lemma patch_lines_no_updates lines acc :
  fold_left (patch_line []) lines acc = (acc.1 ++ lines, acc.2).
Proof.
  revert acc. induction lines as [|l ls IH]; intros acc; simpl.
  - rewrite app_nil_r. destruct acc; reflexivity.
  - rewrite IH, patch_line_no_updates. simpl.
    rewrite <- app_assoc. reflexivity.
Qed.

Section ConfigWrite.
Context (env : Settings).

Lemma write_config_unreadable w e updates :
  fs w !! CONFIG_FILE env = Some e -> (forall t, e <> Text t) ->
  exists x, write_config env updates w = (w, Raise x) /\
            caught [FileNotFoundError] x = false.
Proof.
  intros Hfile Hno. unfold write_config, open_read. unfold_monad.
  rewrite Hfile. destruct e as [x|tail|t].
  - exists (os_exn x). destruct x; split; reflexivity.
  - exists UnicodeDecodeError. split; reflexivity.
  - destruct (Hno t eq_refl).
Qed.

Lemma write_config_empty_run w t :
  fs w !! CONFIG_FILE env = Some (Text t) ->
  write_config env [] w
  = match write_error w (CONFIG_FILE env) with
    | Some x => (w, Raise (open_exn x))
    | None => (with_config env (universal_newlines t) w, Ok tt)
    end.
Proof.
  intros Hfile. unfold write_config, open_read, open_write. unfold_monad.
  rewrite Hfile. simpl.
  rewrite patch_lines_no_updates. simpl.
  rewrite writelines_readlines.
  destruct (write_error w (CONFIG_FILE env)); reflexivity.
Qed.

(** C6, as the code has it: for an existing configuration file that can
    be read as text and opened for writing, [write_config] with an empty
    mapping returns normally and writes back the text that text mode
    handed out, which is the text of the file with every [CR LF] and
    every lone [CR] turned into [LF]: every line, whether a comment,
    blank or a key line, is carried over in its place and nothing is
    added.  A file without [CR] is therefore reproduced exactly, and the
    world is left as it was.  When the file cannot be read, or cannot be
    opened for writing, the call raises and the world is left as it was. *)
Theorem write_config_empty_rewrites (w : World) (e : file_entry) :
  fs w !! CONFIG_FILE env = Some e ->
  (forall t, e = Text t -> write_error w (CONFIG_FILE env) = None ->
     write_config env [] w = (with_config env (universal_newlines t) w, Ok tt) /\
     (fold_left (patch_line []) (text_lines t) ([], ∅)).1 = text_lines t /\
     writelines (text_lines t) = universal_newlines t /\
     (char_in cr t = false ->
      universal_newlines t = t /\ write_config env [] w = (w, Ok tt))) /\
  (forall t x, e = Text t -> write_error w (CONFIG_FILE env) = Some x ->
     write_config env [] w = (w, Raise (open_exn x))) /\
  ((forall t, e <> Text t) -> exists x, write_config env [] w = (w, Raise x)).
Proof.
  intros Hfile. split; [|split].
  - intros t -> Hwrite.
    pose proof (write_config_empty_run w t Hfile) as Hrun.
    rewrite Hwrite in Hrun. split; [exact Hrun|]. split; [|split].
    + rewrite patch_lines_no_updates. reflexivity.
    + apply writelines_readlines.
    + intros Hcr. pose proof (universal_newlines_no_cr t Hcr) as Hsame.
      split; [exact Hsame|]. rewrite Hrun. unfold with_config.
      rewrite Hsame, (insert_id (fs w) _ _ Hfile), set_fs_same. reflexivity.
  - intros t x -> Hwrite.
    rewrite (write_config_empty_run w t Hfile), Hwrite. reflexivity.
  - intros Hno.
    destruct (write_config_unreadable w e [] Hfile Hno) as (x & Hx & _).
    eauto.
Qed.

End ConfigWrite.

(** C6 as stated fails: a configuration file with DOS line ends is not
    reproduced; the line ends written are bare [LF]. *)
Lemma write_config_crlf_counterexample :
  fs Scenes.crlf_world !! CONFIG_FILE default_settings
    = Some (Text Scenes.crlf_text) /\
  write_config default_settings [] Scenes.crlf_world
    = (with_config default_settings ("A=1" +:+ str1 nl +:+ "B=2" +:+ str1 nl)
         Scenes.crlf_world, Ok tt) /\
  fs (write_config default_settings [] Scenes.crlf_world).1
    !! CONFIG_FILE default_settings
    <> Some (Text Scenes.crlf_text).
Proof.
  split; [reflexivity|]. split; [reflexivity|].
  vm_compute. discriminate.
Qed.

Lemma write_config_empty_rewrites_witness :
  write_config default_settings [] Examples.config_world
    = (Examples.config_world, Ok tt) /\
  length (text_lines Examples.config_text) = 6%nat.
Proof.
  split; [|reflexivity].
  destruct (write_config_empty_rewrites default_settings
              Examples.config_world (Text Examples.config_text) eq_refl)
    as (H & _).
  destruct (H Examples.config_text eq_refl eq_refl) as (_ & _ & _ & Hsame).
  apply Hsame. reflexivity.
Defined.

(** ** The configuration store: reading *)

Lemma append_assoc_s (a b c : string) : (a +:+ b) +:+ c = a +:+ (b +:+ c).
Proof. induction a as [|x a IH]; simpl; [reflexivity | f_equal; exact IH]. Qed.

Lemma append_empty_r (s : string) : s +:+ EmptyString = s.
Proof. induction s as [|x s IH]; simpl; [reflexivity | f_equal; exact IH]. Qed.

Lemma dict_get_set_eq {V} k (v : V) d : dict_get k (dict_set k v d) = Some v.
Proof.
  induction d as [|[k' v'] r IH]; simpl.
  - rewrite String.eqb_refl. reflexivity.
  - destruct (String.eqb k k') eqn:E; simpl.
    + rewrite String.eqb_refl. reflexivity.
    + rewrite E. exact IH.
Qed.

Lemma dict_get_set_ne {V} k k' (v : V) d :
  k <> k' -> dict_get k (dict_set k' v d) = dict_get k d.
Proof.
  intros Hne. apply String.eqb_neq in Hne.
  induction d as [|[k2 v2] r IH]; simpl.
  - rewrite Hne. reflexivity.
  - destruct (String.eqb k' k2) eqn:E; simpl.
    + apply String.eqb_eq in E. subst k2. rewrite Hne. reflexivity.
    + destruct (String.eqb k k2); [reflexivity | exact IH].
Qed.

Lemma partition_found c s :
  char_in c s = true ->
  exists k v, s = k +:+ String c v /\ char_in c k = false
              /\ partition c s = (k, true, v).
Proof.
  induction s as [|d r IH]; simpl; [discriminate|].
  rewrite (Ascii.eqb_sym c d).
  destruct (Ascii.eqb d c) eqn:E; simpl.
  - intros _. apply Ascii.eqb_eq in E. subst d.
    exists EmptyString, r. auto.
  - intros H. destruct (IH H) as (k & v & -> & Hk & Hp).
    exists (String d k), v. simpl.
    rewrite (Ascii.eqb_sym c d), E, Hp. auto.
Qed.

Lemma partition_app c k v :
  char_in c k = false -> partition c (k +:+ String c v) = (k, true, v).
Proof.
  induction k as [|d k IH]; simpl.
  - intros _. rewrite Ascii.eqb_refl. reflexivity.
  - rewrite (Ascii.eqb_sym c d). destruct (Ascii.eqb d c); simpl; [discriminate|].
    intros H. rewrite (IH H). reflexivity.
Qed.

Lemma key_split_unique c k1 v1 k2 v2 :
  k1 +:+ String c v1 = k2 +:+ String c v2 ->
  char_in c k1 = false -> char_in c k2 = false ->
  k1 = k2 /\ v1 = v2.
Proof.
  intros Heq H1 H2.
  pose proof (partition_app c k1 v1 H1) as P1.
  pose proof (partition_app c k2 v2 H2) as P2.
  rewrite Heq in P1. rewrite P1 in P2. injection P2 as -> ->. auto.
Qed.

Lemma char_in_app c k v : char_in c (k +:+ String c v) = true.
Proof.
  induction k as [|d k IH]; simpl.
  - rewrite Ascii.eqb_refl. reflexivity.
  - rewrite IH. apply orb_true_r.
Qed.

Lemma startswith_hash_key k0 v0 :
  startswith "#" (k0 +:+ String "=" v0) = startswith "#" k0.
Proof.
  destruct k0 as [|c k]; reflexivity.
Qed.

Lemma sets_key_is_key_line line k v :
  sets_key line k v -> is_key_line (py_strip line) = true.
Proof.
  intros (k0 & v0 & Hs & Hk & Hc & _ & _). unfold is_key_line.
  rewrite Hs, startswith_hash_key, Hc, char_in_app.
  destruct k0; reflexivity.
Qed.

Lemma ignored_not_key_line line :
  ignored_line line -> is_key_line (py_strip line) = false.
Proof.
  unfold is_key_line. intros [H|H]; rewrite H; simpl; [reflexivity|].
  rewrite andb_false_r. reflexivity.
Qed.

Lemma sets_key_functional line k v k' v' :
  sets_key line k v -> sets_key line k' v' -> k = k' /\ v = v'.
Proof.
  intros (k0 & v0 & Hs & Hk & _ & -> & ->) (k1 & v1 & Hs' & Hk' & _ & -> & ->).
  rewrite Hs in Hs'.
  destruct (key_split_unique _ _ _ _ _ Hs' Hk Hk') as [-> ->]. auto.
Qed.

Lemma read_config_line_cases config line :
  (is_key_line (py_strip line) = false /\ read_config_line config line = config)
  \/ (exists k v, sets_key line k v
                  /\ read_config_line config line = dict_set k v config).
Proof.
  unfold read_config_line.
  destruct (is_key_line (py_strip line)) eqn:E; [right | left; auto].
  unfold is_key_line in E.
  apply andb_true_iff in E as [E Heq]. apply andb_true_iff in E as [_ Hc].
  destruct (partition_found _ _ Heq) as (k0 & v0 & Hs & Hk & Hp).
  rewrite Hp. exists (py_strip k0), (config_value (py_strip v0)).
  split; [|reflexivity].
  exists k0, v0. repeat split; try assumption.
  rewrite Hs, startswith_hash_key in Hc.
  destruct (startswith "#" k0); [discriminate | reflexivity].
Qed.

Lemma snoc_decompose {A} (xs before after : list A) (x line : A) :
  xs ++ [x] = before ++ line :: after ->
  (after = [] /\ xs = before /\ x = line)
  \/ (exists after', after = after' ++ [x] /\ xs = before ++ line :: after').
Proof.
  intros H. destruct after as [|a after] using rev_ind.
  - left. apply app_inj_tail in H as [-> ->]. auto.
  - right. clear IHafter. exists after.
    rewrite app_comm_cons, app_assoc in H.
    apply app_inj_tail in H as [-> ->]. auto.
Qed.

Lemma config_last_setting lines k v :
  dict_get k (fold_left read_config_line lines []) = Some v
  <-> last_setting lines k v.
Proof.
  revert k v. induction lines as [|l lines IH] using rev_ind; intros k v.
  - simpl. split; [discriminate|].
    intros (before & line & after & H & _). destruct before; discriminate.
  - rewrite fold_left_app. simpl.
    destruct (read_config_line_cases (fold_left read_config_line lines []) l)
      as [[Hno ->] | (k1 & v1 & Hset & ->)].
    + rewrite IH. split.
      * intros (before & line & after & -> & Hs & Hlast).
        exists before, line, (after ++ [l]). split; [|split; [exact Hs|]].
        { rewrite <- app_assoc. reflexivity. }
        intros l' v' Hin Hs'. apply in_app_or in Hin as [Hin | [<- | []]].
        -- exact (Hlast l' v' Hin Hs').
        -- apply sets_key_is_key_line in Hs'. congruence.
      * intros (before & line & after & Heq & Hs & Hlast).
        apply snoc_decompose in Heq as [(-> & -> & ->) | (after' & -> & ->)].
        -- apply sets_key_is_key_line in Hs. congruence.
        -- exists before, line, after'. split; [reflexivity|].
           split; [exact Hs|]. intros l' v' Hin.
           apply Hlast, in_or_app. auto.
    + destruct (String.eqb_spec k k1) as [-> | Hne].
      * rewrite dict_get_set_eq. split.
        -- intros [= <-]. exists lines, l, []. split; [reflexivity|].
           split; [exact Hset|]. intros ? ? [].
        -- intros (before & line & after & Heq & Hs & Hlast).
           apply snoc_decompose in Heq as [(-> & -> & ->) | (after' & -> & ->)].
           ++ destruct (sets_key_functional _ _ _ _ _ Hs Hset) as [_ ->].
              reflexivity.
           ++ exfalso. apply (Hlast l v1); [|exact Hset].
              apply in_or_app. right. left. reflexivity.
      * rewrite (dict_get_set_ne _ _ _ _ Hne), IH. split.
        -- intros (before & line & after & -> & Hs & Hlast).
           exists before, line, (after ++ [l]). split; [|split; [exact Hs|]].
           { rewrite <- app_assoc. reflexivity. }
           intros l' v' Hin Hs'. apply in_app_or in Hin as [Hin | [<- | []]].
           ++ exact (Hlast l' v' Hin Hs').
           ++ destruct (sets_key_functional _ _ _ _ _ Hs' Hset) as [-> _].
              congruence.
        -- intros (before & line & after & Heq & Hs & Hlast).
           apply snoc_decompose in Heq as [(-> & -> & ->) | (after' & -> & ->)].
           ++ destruct (sets_key_functional _ _ _ _ _ Hs Hset) as [-> _].
              congruence.
           ++ exists before, line, after'. split; [reflexivity|].
              split; [exact Hs|]. intros l' v' Hin.
              apply Hlast, in_or_app. auto.
Qed.

(** *** What [strip] removes *)

Section Strip.
Context (drop : ascii -> bool).

Lemma lstrip_spec s :
  exists pre,
    s = pre +:+ lstrip_with drop s /\ all_chars drop pre = true /\
    (forall c, first_char (lstrip_with drop s) = Some c -> drop c = false).
Proof.
  induction s as [|c r (pre & Heq & Hall & Hfirst)]; simpl.
  - exists EmptyString. repeat split; discriminate.
  - destruct (drop c) eqn:E.
    + exists (String c pre). simpl. rewrite E, Hall, <- Heq. auto.
    + exists EmptyString. repeat split. simpl. intros ? [= <-]. exact E.
Qed.

Lemma rstrip_spec s :
  exists suf,
    s = rstrip_with drop s +:+ suf /\ all_chars drop suf = true /\
    (forall c, last_char (rstrip_with drop s) = Some c -> drop c = false).
Proof.
  induction s as [|c r (suf & Heq & Hall & Hlast)]; simpl.
  - exists EmptyString. repeat split; discriminate.
  - destruct (drop c && is_empty (rstrip_with drop r)) eqn:E.
    + apply andb_true_iff in E as [Ec Er].
      destruct (rstrip_with drop r); [|discriminate]. simpl in Heq. subst r.
      exists (String c suf). simpl. rewrite Ec, Hall.
      repeat split; discriminate.
    + exists suf. simpl. rewrite <- Heq. repeat split; [exact Hall|].
      destruct (rstrip_with drop r) as [|d r'] eqn:Er.
      * intros ? [= <-]. rewrite andb_true_r in E. exact E.
      * exact Hlast.
Qed.

Lemma rstrip_first s c :
  first_char (rstrip_with drop s) = Some c -> first_char s = Some c.
Proof.
  destruct (rstrip_spec s) as (suf & Heq & _).
  destruct (rstrip_with drop s); simpl; [discriminate|].
  intros [= <-]. rewrite Heq. reflexivity.
Qed.

Lemma strip_with_spec s : stripped_of drop s (strip_with drop s).
Proof.
  unfold strip_with.
  destruct (lstrip_spec s) as (pre & Heq & Hpre & Hfirst).
  destruct (rstrip_spec (lstrip_with drop s)) as (suf & Heq' & Hsuf & Hlast).
  exists pre, suf. repeat split; try assumption.
  - rewrite <- Heq'. exact Heq.
  - intros c Hc. apply Hfirst, rstrip_first, Hc.
Qed.

Lemma lstrip_all s : all_chars drop s = true -> lstrip_with drop s = EmptyString.
Proof.
  induction s as [|c r IH]; simpl; [reflexivity|].
  intros H. apply andb_true_iff in H as [-> Hr]. auto.
Qed.

Lemma lstrip_app_drop pre s :
  all_chars drop pre = true ->
  lstrip_with drop (pre +:+ s) = lstrip_with drop s.
Proof.
  induction pre as [|c r IH]; simpl; [reflexivity|].
  intros H. apply andb_true_iff in H as [-> Hr]. auto.
Qed.

Lemma rstrip_all s : all_chars drop s = true -> rstrip_with drop s = EmptyString.
Proof.
  induction s as [|c r IH]; simpl; [reflexivity|].
  intros H. apply andb_true_iff in H as [-> Hr]. rewrite (IH Hr). reflexivity.
Qed.

Lemma rstrip_app_drop s suf :
  all_chars drop suf = true ->
  rstrip_with drop (s +:+ suf) = rstrip_with drop s.
Proof.
  intros H. induction s as [|c r IH]; simpl.
  - apply rstrip_all, H.
  - rewrite IH. reflexivity.
Qed.

Lemma rstrip_id s :
  (forall c, last_char s = Some c -> drop c = false) ->
  rstrip_with drop s = s.
Proof.
  induction s as [|c r IH]; [reflexivity|].
  intros H. destruct r as [|d r'].
  - simpl. rewrite (H c eq_refl). reflexivity.
  - change (rstrip_with drop (String c (String d r')))
      with (let r1 := rstrip_with drop (String d r') in
            if drop c && is_empty r1 then EmptyString else String c r1).
    rewrite IH by exact H. simpl. rewrite andb_false_r. reflexivity.
Qed.

(** [strip] is the only way to satisfy [stripped_of]. *)
Lemma stripped_of_unique v u : stripped_of drop v u -> strip_with drop v = u.
Proof.
  intros (pre & suf & -> & Hpre & Hsuf & Hfirst & Hlast).
  unfold strip_with. rewrite (lstrip_app_drop _ _ Hpre).
  destruct u as [|c x].
  - simpl. rewrite (lstrip_all _ Hsuf). reflexivity.
  - assert (E : lstrip_with drop (String c x +:+ suf) = String c x +:+ suf).
    { simpl. rewrite (Hfirst c eq_refl). reflexivity. }
    rewrite E, (rstrip_app_drop _ _ Hsuf). apply rstrip_id, Hlast.
Qed.

Lemma strip_with_iff v u : strip_with drop v = u <-> stripped_of drop v u.
Proof.
  split; [intros <-; apply strip_with_spec | apply stripped_of_unique].
Qed.

End Strip.

Lemma config_value_iff v r :
  config_value v = r <->
  exists u, stripped_of is_dquote v u /\ stripped_of is_squote u r.
Proof.
  unfold config_value, py_strip_chars. split.
  - intros <-. eexists. split; apply strip_with_spec.
  - intros (u & Hd & Hs).
    apply stripped_of_unique in Hd. apply stripped_of_unique in Hs.
    unfold is_dquote, is_squote in *. rewrite Hd. exact Hs.
Qed.

Section ConfigRead.
Context (env : Settings).

Lemma read_config_present w t :
  fs w !! CONFIG_FILE env = Some (Text t) ->
  read_config env w = (w, Ok (fold_left read_config_line (text_lines t) [])).
Proof.
  intros H. unfold read_config, open_read. unfold_monad. rewrite H. reflexivity.
Qed.

(** C7, as the code has it: when the configuration file can be read as
    text, [read_config] records, for each key, what the last [key=value]
    line for that key says, the lines being those of the text with its
    line ends translated; blank lines and comment lines set no key.
    Whitespace is what [str.strip] removes, the no-break space
    included.  The value recorded is the text after the first [=] with
    surrounding whitespace removed, then every double quote at either end
    removed, then every single quote at either end removed, whether the
    quotes match or not.  For a value written in one pair of double quotes
    around a text that neither begins nor ends with a quote this is the
    text between the quotes. *)
Theorem read_config_semantics (w : World) (t : string) :
  fs w !! CONFIG_FILE env = Some (Text t) ->
  exists config,
    read_config env w = (w, Ok config) /\
    (forall k v, dict_get k config = Some v <-> last_setting (text_lines t) k v) /\
    (forall line k v, ignored_line line -> ~ sets_key line k v) /\
    (forall v r, config_value v = r <->
       exists u, stripped_of is_dquote v u /\ stripped_of is_squote u r) /\
    (forall s,
       (forall c, first_char s = Some c -> is_dquote c || is_squote c = false) ->
       (forall c, last_char s = Some c -> is_dquote c || is_squote c = false) ->
       config_value (str1 dquote +:+ s +:+ str1 dquote) = s).
Proof.
  intros Hfile. eexists. split; [apply read_config_present, Hfile|].
  split; [apply config_last_setting|].
  split.
  { intros line k v Hign Hset. apply ignored_not_key_line in Hign.
    apply sets_key_is_key_line in Hset. congruence. }
  split; [apply config_value_iff|].
  intros s Hfirst Hlast. apply config_value_iff. exists s. split.
  - exists (str1 dquote), (str1 dquote). repeat split.
    + intros c Hc. apply Hfirst in Hc. apply orb_false_iff in Hc. tauto.
    + intros c Hc. apply Hlast in Hc. apply orb_false_iff in Hc. tauto.
  - exists EmptyString, EmptyString. simpl. rewrite append_empty_r.
    repeat split.
    + intros c Hc. apply Hfirst in Hc. apply orb_false_iff in Hc. tauto.
    + intros c Hc. apply Hlast in Hc. apply orb_false_iff in Hc. tauto.
Qed.

End ConfigRead.

(** C7 as stated fails: the line is [NAME=] followed by [x] in single
    quotes inside double quotes.  Removing one layer of matching quotes
    leaves [x] in single quotes; [read_config] records a bare [x]. *)
Lemma read_config_quotes_counterexample :
  read_config default_settings Examples.nested_quotes_world
    = (Examples.nested_quotes_world, Ok [("NAME", "x")]) /\
  strip_one_quote_layer Examples.nested_quotes_value
    = str1 squote +:+ "x" +:+ str1 squote /\
  config_value Examples.nested_quotes_value
    <> strip_one_quote_layer Examples.nested_quotes_value.
Proof.
  split; [reflexivity|]. split; [reflexivity | discriminate].
Qed.

Lemma read_config_semantics_witness :
  (exists config,
     read_config default_settings Examples.config_world
       = (Examples.config_world, Ok config) /\
     dict_get "TARGET_HEIGHT" config = Some "1080" /\
     dict_get "SOURCE_MOVIES" config = Some "/mnt/movies") /\
  (exists config,
     read_config default_settings Scenes.nbsp_world
       = (Scenes.nbsp_world, Ok config) /\
     dict_get "KEY" config = Some "val" /\
     dict_get "NEXT" config = Some "1").
Proof.
  split.
  2: { destruct (read_config_semantics default_settings Scenes.nbsp_world
                   Scenes.nbsp_text eq_refl) as (config & Hrun & _).
       exists config. split; [exact Hrun|].
       assert (E : config = [("KEY", "val"); ("NEXT", "1")]).
       { assert (H : read_config default_settings Scenes.nbsp_world
                     = (Scenes.nbsp_world, Ok [("KEY", "val"); ("NEXT", "1")]))
           by reflexivity.
         rewrite Hrun in H. injection H as H. exact H. }
       rewrite E. split; reflexivity. }
  destruct (read_config_semantics default_settings Examples.config_world
              Examples.config_text eq_refl) as (config & Hrun & _).
  exists config. split; [exact Hrun|].
  assert (E : config = [("SOURCE_MOVIES", "/mnt/movies");
                        ("TARGET_HEIGHT", "1080"); ("DEST_HOST", "backup")]).
  { assert (H : read_config default_settings Examples.config_world
                = (Examples.config_world,
                   Ok [("SOURCE_MOVIES", "/mnt/movies");
                       ("TARGET_HEIGHT", "1080"); ("DEST_HOST", "backup")]))
      by reflexivity.
    rewrite Hrun in H. injection H as H. exact H. }
  rewrite E. split; reflexivity.
Defined.
(** ** Signals *)

Lemma is_empty_map_true {A} (m : gmap positive A) :
  is_empty_map m = true <-> m = ∅.
Proof.
  unfold is_empty_map. rewrite <- map_to_list_empty_iff.
  destruct (map_to_list m); split; congruence.
Qed.

Lemma is_empty_map_false {A} (m : gmap positive A) :
  is_empty_map m = false <-> exists p x, m !! p = Some x.
Proof.
  split.
  - intros H. destruct (map_choose_or_empty m) as [(p & x & Hp)|He]; [eauto|].
    apply is_empty_map_true in He. congruence.
  - intros (p & x & Hp). destruct (is_empty_map m) eqn:E; [|reflexivity].
    apply is_empty_map_true in E. subst m. rewrite lookup_empty in Hp.
    discriminate.
Qed.

Lemma kill_target_iff w n p pr :
  kill_target w n p pr = true <->
  (0 < n /\ Z.pos p = n) \/
  (n = 0 /\ p_pgid pr = self_pgid w) \/
  (n = -1 /\ p <> 1%positive) \/
  (n < -1 /\ Z.pos (p_pgid pr) = - n).
Proof.
  unfold kill_target.
  destruct (Z.ltb_spec 0 n); [rewrite Z.eqb_eq; lia|].
  destruct (Z.eqb_spec n 0).
  { rewrite Pos.eqb_eq. split; [auto|]. intros [|[|[|]]]; first [lia | tauto]. }
  destruct (Z.eqb_spec n (-1)).
  { rewrite negb_true_iff, Pos.eqb_neq. split; [auto|].
    intros [|[|[|]]]; first [lia | tauto]. }
  rewrite Z.eqb_eq. lia.
Qed.

Lemma kill_targets_self_iff w n :
  kill_targets_self w n = true <-> addresses_server w n.
Proof.
  unfold kill_targets_self, addresses_server.
  destruct (Z.ltb_spec 0 n); [rewrite Z.eqb_eq; lia|].
  destruct (Z.eqb_spec n 0); [split; auto|].
  destruct (Z.eqb_spec n (-1)); [split; [discriminate | lia]|].
  rewrite Z.eqb_eq. lia.
Qed.

Lemma targets_lookup w n p pr :
  targets w n !! p = Some pr <-> addresses w n p pr.
Proof.
  unfold targets, addresses. rewrite map_lookup_filter_Some. simpl.
  rewrite kill_target_iff. reflexivity.
Qed.

Lemma ours_lookup (ps : gmap positive process) p pr :
  ours ps !! p = Some pr <-> ps !! p = Some pr /\ p_ours pr = true.
Proof. unfold ours. rewrite map_lookup_filter_Some. reflexivity. Qed.

Lemma os_kill_outcome n sig w :
  os_kill n sig w =
  match kill_error w n with
  | Some e => (w, Raise e)
  | None =>
      match sig with
      | SIG0 => (w, Ok tt)
      | SIGKILL =>
          (set_procs (survivors w n) w,
           if kill_targets_self w n then Raise Killed else Ok tt)
      end
  end.
Proof.
  unfold os_kill, kill_error.
  destruct ((n <? int_min) || (int_max <? n)); [reflexivity|].
  destruct (n =? int_min); [reflexivity|].
  destruct (negb (kill_targets_self w n) && is_empty_map (targets w n));
    [reflexivity|].
  destruct (negb (kill_targets_self w n) && negb (n =? -1)
            && is_empty_map (ours (targets w n))); [reflexivity|].
  destruct sig; [reflexivity|].
  destruct (kill_targets_self w n); reflexivity.
Qed.

Lemma kill_error_overflow w n :
  kill_error w n = Some OverflowError <-> n < int_min \/ int_max < n.
Proof.
  unfold kill_error.
  destruct (Z.ltb_spec n int_min); destruct (Z.ltb_spec int_max n); simpl;
    try (split; [intros _; lia | reflexivity]).
  destruct (n =? int_min); [split; [discriminate | lia]|].
  destruct (negb (kill_targets_self w n) && is_empty_map (targets w n));
    [split; [discriminate | lia]|].
  destruct (negb (kill_targets_self w n) && negb (n =? -1)
            && is_empty_map (ours (targets w n)));
    split; try discriminate; lia.
Qed.

Lemma kill_error_cases w n :
  kill_error w n = None \/ kill_error w n = Some OverflowError \/
  kill_error w n = Some ProcessLookupError \/
  kill_error w n = Some PermissionError.
Proof.
  unfold kill_error.
  destruct ((n <? int_min) || (int_max <? n)); [auto|].
  destruct (n =? int_min); [auto|].
  destruct (negb (kill_targets_self w n) && is_empty_map (targets w n));
    [auto|].
  destruct (negb (kill_targets_self w n) && negb (n =? -1)
            && is_empty_map (ours (targets w n))); auto.
Qed.

Lemma kill_error_none w n : kill_error w n = None <-> signal_reaches w n.
Proof.
  unfold kill_error, signal_reaches.
  destruct (Z.ltb_spec n int_min); simpl; [split; [discriminate | lia]|].
  destruct (Z.ltb_spec int_max n); simpl; [split; [discriminate | lia]|].
  destruct (Z.eqb_spec n int_min); [split; [discriminate | lia]|].
  destruct (kill_targets_self w n) eqn:Hself; simpl.
  { apply kill_targets_self_iff in Hself. split; [|reflexivity].
    intros _. split; [lia | auto]. }
  assert (Hnot : ~ addresses_server w n).
  { rewrite <- kill_targets_self_iff. congruence. }
  destruct (is_empty_map (targets w n)) eqn:Hfound.
  { apply is_empty_map_true in Hfound. split; [discriminate|].
    intros [_ [Hs | (p & pr & Hp & _)]]; [tauto|].
    apply targets_lookup in Hp. rewrite Hfound, lookup_empty in Hp.
    discriminate. }
  apply is_empty_map_false in Hfound as (p & pr & Hp).
  apply targets_lookup in Hp.
  destruct (Z.eqb_spec n (-1)); simpl.
  { split; [|reflexivity]. intros _. split; [lia|]. right. eauto. }
  destruct (is_empty_map (ours (targets w n))) eqn:Hours.
  - apply is_empty_map_true in Hours. split; [discriminate|].
    intros [_ [Hs | (q & qr & Hq & [Ho | Hn])]]; [tauto | | lia].
    assert (Hin : ours (targets w n) !! q = Some qr).
    { apply ours_lookup. split; [apply targets_lookup, Hq | exact Ho]. }
    rewrite Hours, lookup_empty in Hin. discriminate.
  - apply is_empty_map_false in Hours as (q & qr & Hq).
    apply ours_lookup in Hq as [Hq Ho]. apply targets_lookup in Hq.
    split; [|reflexivity]. intros _. split; [lia|]. right. eauto.
Qed.

(** ** The supervisor *)

Section Supervisor.
Context {lib : PyLib} (env : Settings).

Lemma get_runner_pid_text w t :
  fs w !! pid_file env = Some (Text t) ->
  get_runner_pid env w =
  (w, match py_int int_max_str_digits (py_strip (universal_newlines t)) with
      | None => Ok None
      | Some n =>
          match kill_error w n with
          | None => Ok (Some n)
          | Some OverflowError => Raise OverflowError
          | Some _ => Ok None
          end
      end).
Proof.
  intros Hfile. unfold get_runner_pid, try_except, open_read. unfold_monad.
  rewrite Hfile.
  destruct (py_int int_max_str_digits (py_strip (universal_newlines t)))
    as [n|]; [|reflexivity].
  simpl. rewrite os_kill_outcome.
  destruct (kill_error_cases w n) as [-> | [-> | [-> | ->]]]; reflexivity.
Qed.

Lemma get_runner_pid_no_text w :
  (forall t, fs w !! pid_file env <> Some (Text t)) ->
  get_runner_pid env w =
  (w, match fs w !! pid_file env with
      | Some (Unreadable EISDIR) => Raise IsADirectoryError
      | Some (Unreadable EIO) => Raise OSError
      | _ => Ok None
      end).
Proof.
  intros Hno. unfold get_runner_pid, try_except, open_read. unfold_monad.
  destruct (fs w !! pid_file env) as [[[]|tail|t]|]; try reflexivity.
  destruct (Hno t eq_refl).
Qed.

Lemma pid_recorded_functional w n m :
  pid_recorded env w n -> pid_recorded env w m -> n = m.
Proof.
  intros (t & Ht & Hn) (t' & Ht' & Hm). rewrite Ht in Ht'.
  injection Ht' as <-. congruence.
Qed.

Lemma get_runner_pid_recorded w n :
  pid_recorded env w n ->
  get_runner_pid env w =
  (w, match kill_error w n with
      | None => Ok (Some n)
      | Some OverflowError => Raise OverflowError
      | Some _ => Ok None
      end).
Proof.
  intros (t & Ht & Hn). rewrite (get_runner_pid_text w t Ht), Hn. reflexivity.
Qed.

Lemma get_runner_pid_some w n :
  get_runner_pid env w = (w, Ok (Some n)) <->
  pid_recorded env w n /\ signal_reaches w n.
Proof.
  split.
  - intros Hrun.
    destruct (fs w !! pid_file env) as [[e|tail|t]|] eqn:Hfile.
    1,2,4: rewrite get_runner_pid_no_text in Hrun by (rewrite Hfile; discriminate);
      rewrite Hfile in Hrun; try destruct e; discriminate.
    rewrite (get_runner_pid_text w t Hfile) in Hrun.
    destruct (py_int int_max_str_digits (py_strip (universal_newlines t)))
      as [m|] eqn:Hint; [|discriminate].
    destruct (kill_error_cases w m) as [E | [E | [E | E]]];
      rewrite E in Hrun; try discriminate.
    injection Hrun as ->. split; [exists t; auto | apply kill_error_none, E].
  - intros [Hrec Hreach]. rewrite (get_runner_pid_recorded w n Hrec).
    apply kill_error_none in Hreach. rewrite Hreach. reflexivity.
Qed.

Lemma get_runner_pid_none w :
  get_runner_pid env w = (w, Ok None) <->
  pid_unusable env w \/
  exists n, pid_recorded env w n /\ int_min <= n <= int_max /\
            ~ signal_reaches w n.
Proof.
  split.
  - intros Hrun.
    destruct (fs w !! pid_file env) as [[e|tail|t]|] eqn:Hfile.
    + rewrite get_runner_pid_no_text in Hrun by (rewrite Hfile; discriminate).
      rewrite Hfile in Hrun. left. right. left.
      destruct e; [exact Hfile | discriminate | discriminate].
    + left. right. right. left. eauto.
    + rewrite (get_runner_pid_text w t Hfile) in Hrun.
      destruct (py_int int_max_str_digits (py_strip (universal_newlines t)))
        as [m|] eqn:Hint.
      * right. exists m. split; [exists t; auto|].
        destruct (kill_error w m) as [e|] eqn:E; [|discriminate].
        split.
        -- destruct (Z.le_gt_cases int_min m); destruct (Z.le_gt_cases m int_max);
             try lia;
             (assert (Ho : kill_error w m = Some OverflowError)
                by (apply kill_error_overflow; lia));
             rewrite Ho in E; injection E as <-; discriminate.
        -- rewrite <- kill_error_none. congruence.
      * left. right. right. right. exists t. auto.
    + left. left. exact Hfile.
  - intros [[H | [H | [(tail & H) | (t & H & Hint)]]] | (n & Hrec & Hrange & Hno)].
    + rewrite get_runner_pid_no_text by (rewrite H; discriminate).
      rewrite H. reflexivity.
    + rewrite get_runner_pid_no_text by (rewrite H; discriminate).
      rewrite H. reflexivity.
    + rewrite get_runner_pid_no_text by (rewrite H; discriminate).
      rewrite H. reflexivity.
    + rewrite (get_runner_pid_text w t H), Hint. reflexivity.
    + rewrite (get_runner_pid_recorded w n Hrec).
      destruct (kill_error_cases w n) as [E | [E | [E | E]]]; rewrite E;
        try reflexivity.
      * apply kill_error_none in E. tauto.
      * apply kill_error_overflow in E. lia.
Qed.

Lemma signal_reaches_process w p :
  signal_reaches w (Z.pos p) <->
  Z.pos p <= int_max /\
  (p = self_pid w \/ exists pr, procs w !! p = Some pr /\ p_ours pr = true).
Proof.
  unfold signal_reaches, addresses_server, addresses, int_min. split.
  - intros [Hrange [[[_ H] | [H | [H _]]] | (q & pr & [Hq Hcase] & Ho)]];
      try (exfalso; lia); (split; [lia|]).
    + left. congruence.
    + right. destruct Hcase as [[_ H] | [[H _] | [[H _] | [H _]]]]; try lia.
      assert (q = p) by congruence. subst q.
      destruct Ho as [Ho | Ho]; [eauto | lia].
  - intros [Hmax [-> | (pr & Hp & Ho)]]; (split; [lia|]).
    + left. left. lia.
    + right. exists p, pr. split; [|auto]. split; [exact Hp|]. left. lia.
Qed.

Lemma signal_reaches_own_group w : signal_reaches w 0.
Proof.
  unfold signal_reaches, addresses_server, int_min, int_max.
  split; [lia | auto].
Qed.

Lemma signal_reaches_everyone w :
  signal_reaches w (-1) <->
  exists p pr, procs w !! p = Some pr /\ p <> 1%positive.
Proof.
  unfold signal_reaches, addresses_server, addresses, int_min, int_max. split.
  - intros [_ [[[H _] | [H | [H _]]] | (p & pr & [Hp Hcase] & _)]]; try lia.
    destruct Hcase as [[H _] | [[H _] | [[_ H] | [H _]]]]; try lia. eauto.
  - intros (p & pr & Hp & Hne). split; [lia|]. right. exists p, pr.
    split; [|auto]. split; [exact Hp|]. right. right. left. auto.
Qed.

(** C5, as the code has it: [get_runner_pid] returns the recorded number
    exactly when the PID file holds a text that [int] reads as a number
    [n] for which [os.kill(n, 0)] succeeds.  For a positive [n] that is
    when [n] is the server itself or a process that exists and that the
    server may signal; 0 stands for the server's own process group and is
    always returned; -1 is returned as soon as there is a process other
    than the first.  It reports not running when there is no PID file,
    the file may not be read, its bytes do not decode, its text is not
    an integer, or the number is a C [int] that the signal does not
    reach.  It raises when the number does not fit a C [int]
    ([OverflowError]) and when the PID file is a directory or cannot be
    read for a reason other than permission.  In every case the world,
    the PID file included, is left as it was found. *)
Theorem get_runner_pid_liveness (w : World) :
  (forall n, get_runner_pid env w = (w, Ok (Some n))
             <-> pid_recorded env w n /\ signal_reaches w n) /\
  (get_runner_pid env w = (w, Ok None)
   <-> pid_unusable env w \/
       exists n, pid_recorded env w n /\ int_min <= n <= int_max /\
                 ~ signal_reaches w n) /\
  (forall n, pid_recorded env w n -> n < int_min \/ int_max < n ->
     get_runner_pid env w = (w, Raise OverflowError)) /\
  (forall e, fs w !! pid_file env = Some (Unreadable e) -> e <> EACCES ->
     get_runner_pid env w = (w, Raise (os_exn e))) /\
  (forall p, signal_reaches w (Z.pos p) <->
     Z.pos p <= int_max /\
     (p = self_pid w \/
      exists pr, procs w !! p = Some pr /\ p_ours pr = true)) /\
  signal_reaches w 0 /\
  (signal_reaches w (-1) <->
     exists p pr, procs w !! p = Some pr /\ p <> 1%positive) /\
  (get_runner_pid env w).1 = w.
Proof.
  split; [apply get_runner_pid_some|].
  split; [apply get_runner_pid_none|].
  split.
  { intros n Hrec Hrange. rewrite (get_runner_pid_recorded w n Hrec).
    apply (proj2 (kill_error_overflow w n)) in Hrange.
    rewrite Hrange. reflexivity. }
  split.
  { intros e Hfile He.
    rewrite get_runner_pid_no_text by (rewrite Hfile; discriminate).
    rewrite Hfile. destruct e; [congruence | reflexivity | reflexivity]. }
  split; [apply signal_reaches_process|].
  split; [apply signal_reaches_own_group|].
  split; [apply signal_reaches_everyone|].
  apply readonly_get_runner_pid.
Qed.

End Supervisor.

(** C5 as stated fails, both ways.  The PID file names process 1, which
    exists but belongs to another user: the probe is refused and
    [get_runner_pid] reports not running.  And a PID file that holds [0]
    names no process, yet [get_runner_pid] returns 0. *)
Lemma get_runner_pid_foreign_counterexample :
  (pid_recorded default_settings Examples.foreign_pid_world 1 /\
   process_exists Examples.foreign_pid_world 1 /\
   get_runner_pid default_settings Examples.foreign_pid_world
     = (Examples.foreign_pid_world, Ok None)) /\
  (pid_recorded default_settings Scenes.zero_pid_world 0 /\
   ~ process_exists Scenes.zero_pid_world 0 /\
   get_runner_pid default_settings Scenes.zero_pid_world
     = (Scenes.zero_pid_world, Ok (Some 0))).
Proof.
  split; (split; [|split]).
  - exists "1". split; reflexivity.
  - exists 1%positive, Examples.init_process. split; reflexivity.
  - reflexivity.
  - exists "0". split; reflexivity.
  - intros (p & pr & Hp & _). discriminate Hp.
  - reflexivity.
Qed.

Lemma get_runner_pid_liveness_witness :
  get_runner_pid default_settings Examples.running_world
    = (Examples.running_world, Ok (Some 4242)) /\
  process_exists Examples.running_world 4242 /\
  get_runner_pid default_settings Scenes.huge_pid_world
    = (Scenes.huge_pid_world, Raise OverflowError).
Proof.
  pose proof (get_runner_pid_liveness default_settings Examples.running_world)
    as (Hsome & _ & _ & _ & Hpos & _).
  assert (Hrec : pid_recorded default_settings Examples.running_world 4242).
  { exists ("4242" +:+ str1 nl). split; reflexivity. }
  assert (Hsig : signal_reaches Examples.running_world 4242).
  { apply Hpos. split; [vm_compute; discriminate|]. right.
    exists (Examples.worker true 4242). split; reflexivity. }
  split; [apply Hsome; split; assumption|]. split.
  - exists 4242%positive, (Examples.worker true 4242). split; reflexivity.
  - pose proof (get_runner_pid_liveness default_settings Scenes.huge_pid_world)
      as (_ & _ & Hover & _).
    apply (Hover 2147483648).
    + exists "2147483648". split; reflexivity.
    + right. reflexivity.
Defined.

(** ** Stopping *)

Section Stop.
Context {lib : PyLib} (env : Settings).


Lemma kill_error_frame w1 w n :
  procs w1 = procs w -> self_pid w1 = self_pid w ->
  self_pgid w1 = self_pgid w -> kill_error w1 n = kill_error w n.
Proof.
  intros Hp Hs Hg. unfold kill_error, kill_targets_self, targets, kill_target.
  rewrite Hp, Hs, Hg. reflexivity.
Qed.






Lemma after_pkill_frame w :
  after_pkill env w = set_procs (procs (after_pkill env w)) w.
Proof.
  unfold after_pkill. destruct (pkill_runs env w); [reflexivity|].
  symmetry. apply set_procs_same.
Qed.













Lemma self_pid_after_pkill w : self_pid (after_pkill env w) = self_pid w.
Proof. rewrite after_pkill_frame. reflexivity. Qed.





End Stop.



(** ** Starting *)




Section Start.
Context {lib : PyLib} (env : Settings).





End Start.



(** ** The log tail *)

Section LogTail.
Context {lib : PyLib} (env : Settings).

Lemma tail_argv_nul file :
  has_nul ["tail"; "-50"; file] = char_in nul file.
Proof. unfold has_nul. simpl. apply orb_false_r. Qed.

Lemma api_log_run w name :
  char_in nul (log_file env name) = false ->
  startswith "-" (log_file env name) = false ->
  spawn_error w ["tail"; "-50"; log_file env name] = None ->
  api_log env ("/api/log/" +:+ name) w =
  (w, Ok match tail_50 w (log_file env name) with
         | Ok result => Reply 200 [("Content-Type", "text/plain")]
                          (BodyText (stdout result))
         | Raise _ => Reply 404 [] BodyEmpty
         end).
Proof.
  intros Hnul Hdash Hspawn.
  unfold api_log, try_except_all, subprocess_run. unfold_monad.
  change (str_from 9 ("/api/log/" +:+ name)) with name.
  fold (log_file env name).
  rewrite tail_argv_nul, Hnul, Hdash, Hspawn.
  unfold tail_50. destruct (fs w !! log_file env name) as [[e|[t|]|t]|];
    reflexivity.
Qed.

(** When [tail] can be started, the answer is 200 for a file that does
    not exist or cannot be read: the body is empty. *)
Lemma api_log_never_404_on_tail_failure w name :
  char_in nul (log_file env name) = false ->
  startswith "-" (log_file env name) = false ->
  spawn_error w ["tail"; "-50"; log_file env name] = None ->
  (fs w !! log_file env name = None \/
   exists e, fs w !! log_file env name = Some (Unreadable e)) ->
  api_log env ("/api/log/" +:+ name) w =
  (w, Ok (Reply 200 [("Content-Type", "text/plain")] (BodyText EmptyString))).
Proof.
  intros Hnul Hdash Hspawn Hfile.
  rewrite (api_log_run w name Hnul Hdash Hspawn). unfold tail_50.
  destruct Hfile as [-> | [e ->]]; reflexivity.
Qed.

End LogTail.

(** C9 at the failing input: no file [missing.log] exists in the log
    directory and [tail] runs.  [do_GET] on [/api/log/missing.log]
    answers 200 with an empty [text/plain] body, where the claim has 404:
    [tail] reports the failure by its exit status, which is not looked
    at, and raises nothing, so the [except] branch is not taken. *)
Theorem log_of_missing_file_is_200 :
  fs Examples.quiet !! path_join (LOG_DIR default_settings) "missing.log" = None /\
  do_GET default_settings "/api/log/missing.log" Examples.quiet
    = (Examples.quiet,
       Ok (Reply 200 [("Content-Type", "text/plain")] (BodyText EmptyString))).
Proof. split; reflexivity. Qed.

(** ** The projection of the time left *)







Section Eta.
Context {lib : PyLib}.


Lemma py_fromisoformat_inv v dt :
  py_fromisoformat v = Ok dt -> exists s, v = PStr s /\ fromisoformat s = Some dt.
Proof.
  destruct v; simpl; try discriminate.
  destruct (fromisoformat s) as [x|] eqn:E; [|discriminate].
  intros [= <-]. eauto.
Qed.

Lemma job_seconds_inv j t : job_seconds j = Ok t -> elapsed j t.
Proof.
  unfold job_seconds. intros H.
  apply rbind_ok_inv in H as (sv & Hs & H).
  apply rbind_ok_inv in H as (ds & Hds & H).
  apply rbind_ok_inv in H as (uv & Hu & H).
  apply rbind_ok_inv in H as (du & Hdu & H).
  apply py_fromisoformat_inv in Hds as (s & -> & Hds).
  apply py_fromisoformat_inv in Hdu as (u & -> & Hdu).
  exists s, u, ds, du. auto.
Qed.



End Eta.



(** ** Disk probes *)

Lemma disk_entry_ok prefix parts :
  (5 <= length parts)%nat -> disk_entry prefix parts = Ok (df_entry prefix parts).
Proof.
  intros H. unfold disk_entry, df_entry, list_last, list_index.
  destruct (last parts) as [m|] eqn:El.
  - destruct parts as [|a [|b [|c [|d [|e rest]]]]]; simpl in H; try lia.
    reflexivity.
  - apply last_None in El. subst. simpl in H. lia.
Qed.

Lemma disk_entry_short prefix parts :
  (length parts < 5)%nat ->
  disk_entry prefix parts = Raise IndexError.
Proof.
  intros H. unfold disk_entry, list_last, list_index.
  destruct (last parts) as [m|] eqn:El; [|reflexivity].
  destruct parts as [|a [|b [|c [|d [|e rest]]]]]; simpl in H; try lia;
    reflexivity.
Qed.

Lemma df_fields_short out :
  (length (split_on nl (py_strip (stdout out))) <= 1)%nat -> df_fields out = [].
Proof.
  intros H. unfold df_fields.
  destruct (split_on nl (py_strip (stdout out))) as [|a [|b rest]];
    simpl in H; try lia; reflexivity.
Qed.

Lemma run_exn_not_killed e : is_killed (run_exn e) = false.
Proof. destruct e as [[|[]]| |]; reflexivity. Qed.

Lemma probe_disk_found label prefix argv disks w :
  disk_command argv -> probe_succeeds w argv ->
  probe_disk label prefix argv disks w
  = (after_command argv w,
     Ok (dict_set label
           (df_entry prefix (df_fields (command_output w argv))) disks)).
Proof.
  intros Hcmd (Hnul & Hspawn & Hcode & Hlen).
  unfold probe_disk. unfold_monad.
  rewrite (subprocess_run_disk_command argv w Hcmd), Hnul, Hspawn, Hcode. simpl.
  destruct (Nat.ltb_spec 1
              (length (split_on nl (py_strip (stdout (command_output w argv))))))
    as [Hl | Hl].
  - fold (df_fields (command_output w argv)).
    rewrite (disk_entry_ok prefix _ Hlen). reflexivity.
  - rewrite (df_fields_short _ Hl) in Hlen. simpl in Hlen. lia.
Qed.

Lemma probe_disk_not_found label prefix argv disks w :
  disk_command argv -> ~ probe_succeeds w argv ->
  probe_disk label prefix argv disks w = (after_command argv w, Ok disks).
Proof.
  intros Hcmd Hfail. unfold probe_disk. unfold_monad.
  rewrite (subprocess_run_disk_command argv w Hcmd).
  unfold after_command.
  destruct (has_nul argv) eqn:Hnul; [reflexivity|].
  destruct (spawn_error w argv) as [e|] eqn:Hspawn.
  { rewrite run_exn_not_killed. reflexivity. }
  destruct (Z.eqb_spec (returncode (command_output w argv)) 0) as [Hcode | Hcode];
    [|reflexivity].
  destruct (1 <? _)%nat; [|reflexivity].
  fold (df_fields (command_output w argv)).
  destruct (Nat.le_gt_cases 5 (length (df_fields (command_output w argv))))
    as [Hlen | Hlen].
  - exfalso. apply Hfail. repeat split; assumption.
  - rewrite (disk_entry_short prefix _ Hlen). reflexivity.
Qed.

Lemma probe_succeeds_dec w argv : probe_succeeds w argv \/ ~ probe_succeeds w argv.
Proof.
  unfold probe_succeeds.
  destruct (has_nul argv); [right; intros (H & _); discriminate|].
  destruct (spawn_error w argv) as [e|];
    [right; intros (_ & H & _); discriminate|].
  destruct (Z.eq_dec (returncode (command_output w argv)) 0) as [Hc|Hc];
    [|right; intros (_ & _ & H & _); contradiction].
  destruct (Nat.le_gt_cases 5 (length (df_fields (command_output w argv))))
    as [Hl|Hl]; [left; auto | right; intros (_ & _ & _ & H); lia].
Qed.

Lemma probe_succeeds_frame f w argv :
  probe_succeeds (set_fs f w) argv <-> probe_succeeds w argv.
Proof. reflexivity. Qed.

Lemma is_empty_false s : is_empty s = false <-> s <> EmptyString.
Proof. destruct s; simpl; split; congruence. Qed.

Lemma probe_step_other P label disks disks' k :
  probe_step P label disks disks' -> k <> label ->
  dict_get k disks' = dict_get k disks.
Proof.
  intros [(_ & e & ->) | (_ & ->)] Hk; [apply dict_get_set_ne, Hk | reflexivity].
Qed.

Lemma probe_step_label P label disks disks' :
  probe_step P label disks disks' -> dict_get label disks = None ->
  is_Some (dict_get label disks') <-> P.
Proof.
  intros [(HP & e & ->) | (HP & ->)] Hnone.
  - rewrite dict_get_set_eq. split; eauto.
  - rewrite Hnone. split; [intros [x Hx]; discriminate | contradiction].
Qed.

Lemma probe_disk_step label prefix argv disks w :
  disk_command argv ->
  exists disks',
    probe_disk label prefix argv disks w = (after_command argv w, Ok disks') /\
    probe_step (probe_succeeds w argv) label disks disks'.
Proof.
  intros Hcmd. destruct (probe_succeeds_dec w argv) as [H|H].
  - eexists. split; [apply probe_disk_found; assumption|]. left. eauto.
  - exists disks. split; [apply probe_disk_not_found; assumption|].
    right. auto.
Qed.

Lemma probe_local_step disks label path w :
  exists disks' f,
    probe_local disks (label, path) w = (set_fs f w, Ok disks') /\
    probe_step (local_probe_succeeds w path) label disks disks'.
Proof.
  unfold probe_local, local_probe_succeeds. destruct path as [|c path].
  - exists disks, (fs w). rewrite set_fs_same. split; [reflexivity|].
    right. split; [|reflexivity]. intros [H _]. congruence.
  - simpl is_empty. cbv iota.
    assert (Hcmd : disk_command ["df"; "-h"; String c path])
      by (left; eexists; reflexivity).
    destruct (probe_disk_step label EmptyString _ disks w Hcmd)
      as (disks' & Hrun & Hstep).
    exists disks', (fs (after_command ["df"; "-h"; String c path] w)).
    rewrite <- (proj1 (after_command_frame _ w)). split; [exact Hrun|].
    destruct Hstep as [[H He] | [H ->]].
    + left. split; [split; [discriminate | exact H] | exact He].
    + right. split; [intros [_ H']; contradiction | reflexivity].
Qed.

(** X15: one probe of [get_disk_usage], for either of its two commands.
    The probe never raises.  When the command can be run, ends with
    status 0 and prints a second line of five fields or more, fields
    being separated by whitespace, the entry under the label is set to
    the mount point (the last field, after the prefix) and the size,
    used, available and percentage fields (the second to the fifth), and
    every other entry stays; in every other case (an argument with a NUL
    character, a command that cannot start or times out, output that
    does not decode, a status other than 0, fewer than two lines, fewer
    than five fields) the entries are returned as they were.  The world
    after the probe is the world after the command: nothing but files
    has changed, and no file when the command leaves the files alone. *)
Theorem probe_disk_outcome (label prefix : string) (argv : list string)
  (disks : dict pyval) (w : World) :
  disk_command argv ->
  (probe_succeeds w argv ->
   exists disks',
     probe_disk label prefix argv disks w = (after_command argv w, Ok disks') /\
     dict_get label disks'
     = Some (df_entry prefix (df_fields (command_output w argv))) /\
     forall k, k <> label -> dict_get k disks' = dict_get k disks) /\
  (~ probe_succeeds w argv ->
   probe_disk label prefix argv disks w = (after_command argv w, Ok disks)) /\
  after_command argv w = set_fs (fs (after_command argv w)) w /\
  (commands_keep_files w -> after_command argv w = w).
Proof.
  intros Hcmd. split; [|split].
  - intros Hok. eexists. split; [apply probe_disk_found; assumption|].
    split; [apply dict_get_set_eq|].
    intros k Hk. apply dict_get_set_ne, Hk.
  - apply probe_disk_not_found, Hcmd.
  - apply after_command_frame.
Qed.

Section DiskUsage.
Context {lib : PyLib} (env : Settings).

Lemma get_disk_usage_steps w config :
  read_config env w = (w, Ok config) ->
  exists d1 d2 d3,
    get_disk_usage env w = (after_probes env w, Ok d3) /\
    probe_step (local_probe_succeeds w (setting config "SOURCE_MOVIES"))
      "source" [] d1 /\
    probe_step (local_probe_succeeds w (setting config "TEMP_DIR"))
      "temp" d1 d2 /\
    probe_step (dest_probe_succeeds w config) "dest" d2 d3.
Proof.
  intros Hc.
  destruct (probe_local_step [] "source" (setting config "SOURCE_MOVIES") w)
    as (d1 & f1 & Hrun1 & Hstep1).
  destruct (probe_local_step d1 "temp" (setting config "TEMP_DIR") (set_fs f1 w))
    as (d2 & f2 & Hrun2 & Hstep2).
  change (set_fs f2 (set_fs f1 w)) with (set_fs f2 w) in Hrun2.
  change (local_probe_succeeds (set_fs f1 w) (setting config "TEMP_DIR"))
    with (local_probe_succeeds w (setting config "TEMP_DIR")) in Hstep2.
  assert (Hdest : exists d3 w3,
            (if negb (is_empty (setting config "DEST_HOST"))
                && negb (is_empty (setting config "DEST_SSH_KEY"))
                && negb (is_empty (setting config "DEST_MOVIES"))
             then probe_disk "dest" (setting config "DEST_HOST" +:+ ":")
                    (dest_argv config) d2
             else mret d2) (set_fs f2 w) = (w3, Ok d3) /\
            probe_step (dest_probe_succeeds w config) "dest" d2 d3).
  { unfold dest_probe_succeeds.
    destruct (is_empty (setting config "DEST_HOST")) eqn:Eh.
    { exists d2. eexists. split; [reflexivity|]. right. split; [|reflexivity].
      intros (H & _). apply is_empty_false in H. congruence. }
    destruct (is_empty (setting config "DEST_SSH_KEY")) eqn:Ek.
    { exists d2. eexists. split; [reflexivity|]. right. split; [|reflexivity].
      intros (_ & H & _). apply is_empty_false in H. congruence. }
    destruct (is_empty (setting config "DEST_MOVIES")) eqn:Em.
    { exists d2. eexists. split; [reflexivity|]. right. split; [|reflexivity].
      intros (_ & _ & H & _). apply is_empty_false in H. congruence. }
    simpl negb. simpl andb. cbv iota.
    apply is_empty_false in Eh, Ek, Em.
    assert (Hcmd : disk_command (dest_argv config))
      by (right; do 3 eexists; reflexivity).
    destruct (probe_disk_step "dest" (setting config "DEST_HOST" +:+ ":")
                (dest_argv config) d2 (set_fs f2 w) Hcmd)
      as (d3 & Hrun & Hstep).
    exists d3. eexists. split; [exact Hrun|].
    change (probe_succeeds (set_fs f2 w) (dest_argv config))
      with (probe_succeeds w (dest_argv config)) in Hstep.
    destruct Hstep as [[H He] | [H ->]]; [left; auto|].
    right. split; [intros (_ & _ & _ & H'); contradiction | reflexivity]. }
  destruct Hdest as (d3 & w3 & Hrun3 & Hstep3).
  exists d1, d2, d3. split; [|auto].
  assert (Hrun : get_disk_usage env w = (w3, Ok d3)).
  { unfold get_disk_usage. unfold_monad. rewrite Hc.
    fold (setting config "SOURCE_MOVIES"). rewrite Hrun1.
    fold (setting config "TEMP_DIR"). rewrite Hrun2.
    exact Hrun3. }
  unfold after_probes. rewrite Hrun. reflexivity.
Qed.

Lemma get_disk_usage_total w config :
  read_config env w = (w, Ok config) ->
  exists disks, get_disk_usage env w = (after_probes env w, Ok disks).
Proof.
  intros Hc. destruct (get_disk_usage_steps w config Hc)
    as (_ & _ & d3 & H & _). eauto.
Qed.

(** X16: the entries of [get_disk_usage].  With a configuration that can
    be read it never raises, whatever the commands do.  The entries it
    returns are among [source], [temp] and [dest]; [source] is there
    exactly when [SOURCE_MOVIES] is set and its probe finds the file
    system, [temp] likewise for [TEMP_DIR], and [dest] exactly when
    [DEST_HOST], [DEST_SSH_KEY] and [DEST_MOVIES] are all set and the
    probe over [ssh] finds the file system.  Afterwards nothing but
    files has changed, and no file when the commands leave the files
    alone. *)
Theorem disk_usage_entries (w : World) (config : dict string) :
  read_config env w = (w, Ok config) ->
  exists disks w',
    get_disk_usage env w = (w', Ok disks) /\
    w' = set_fs (fs w') w /\
    (commands_keep_files w -> w' = w) /\
    (forall k, is_Some (dict_get k disks) ->
       k = "source" \/ k = "temp" \/ k = "dest") /\
    (is_Some (dict_get "source" disks)
     <-> local_probe_succeeds w (setting config "SOURCE_MOVIES")) /\
    (is_Some (dict_get "temp" disks)
     <-> local_probe_succeeds w (setting config "TEMP_DIR")) /\
    (is_Some (dict_get "dest" disks) <-> dest_probe_succeeds w config).
Proof.
  intros Hc.
  destruct (get_disk_usage_steps w config Hc)
    as (d1 & d2 & d3 & Hrun & H1 & H2 & H3).
  exists d3, (after_probes env w). split; [exact Hrun|].
  split; [apply after_probes_frame|]. split; [apply after_probes_frame|].
  assert (E1 : forall k, k <> "source" -> dict_get k d1 = None).
  { intros k Hk. rewrite (probe_step_other _ _ _ _ k H1 Hk). reflexivity. }
  split; [|split; [|split]].
  - intros k Hk.
    destruct (String.eqb_spec k "dest") as [|Hd]; [auto|].
    destruct (String.eqb_spec k "temp") as [|Ht]; [auto|].
    destruct (String.eqb_spec k "source") as [|Hs]; [auto|].
    rewrite (probe_step_other _ _ _ _ k H3 Hd),
            (probe_step_other _ _ _ _ k H2 Ht), (E1 k Hs) in Hk.
    destruct Hk as [x Hx]. discriminate.
  - rewrite (probe_step_other _ _ _ _ "source" H3) by discriminate.
    rewrite (probe_step_other _ _ _ _ "source" H2) by discriminate.
    apply (probe_step_label _ _ _ _ H1). reflexivity.
  - rewrite (probe_step_other _ _ _ _ "temp" H3) by discriminate.
    apply (probe_step_label _ _ _ _ H2). apply E1. discriminate.
  - apply (probe_step_label _ _ _ _ H3).
    rewrite (probe_step_other _ _ _ _ "dest" H2) by discriminate.
    apply E1. discriminate.
Qed.

End DiskUsage.

(** ** The [eta] field of the status snapshot *)

Lemma filter_r_inv test l l' :
  filter_r test l = Ok l' ->
  forall x, In x l' -> In x l /\ test x = Ok true.
Proof.
  revert l'. induction l as [|j l IH]; simpl; intros l' H x Hx.
  - injection H as <-. destruct Hx.
  - apply rbind_ok_inv in H as (b & Hb & H).
    apply rbind_ok_inv in H as (r & Hr & H).
    injection H as <-. destruct b.
    + destruct Hx as [<- | Hx]; [auto|].
      destruct (IH _ Hr _ Hx). auto.
    + destruct (IH _ Hr _ Hx). auto.
Qed.

Lemma filter_r_total test l :
  (forall j, In j l -> exists b, test j = Ok b) ->
  exists l', filter_r test l = Ok l'.
Proof.
  induction l as [|j l IH]; simpl; intros H; [eauto|].
  destruct (H j (or_introl eq_refl)) as [b ->].
  destruct IH as [l' ->]; [intros; apply H; auto|].
  simpl. eauto.
Qed.

Lemma status_in_total ss j : has_key "status" j -> exists b, status_in ss j = Ok b.
Proof.
  intros (d & x & -> & Hx). unfold status_in. simpl. rewrite Hx. simpl. eauto.
Qed.

Lemma done_with_times_total j :
  has_key "status" j -> exists b, done_with_times j = Ok b.
Proof.
  intros (d & x & -> & Hx). unfold done_with_times. simpl. rewrite Hx. simpl.
  destruct (py_eq_str x "done"); [|eauto].
  destruct (py_truthy _); eauto.
Qed.

Lemma done_with_times_done j :
  done_with_times j = Ok true -> py_getitem j "status" = Ok (PStr "done").
Proof.
  unfold done_with_times. intros H.
  apply rbind_ok_inv in H as (st & Hst & H). rewrite Hst.
  destruct st; simpl in H; try discriminate.
  destruct (String.eqb_spec s "done") as [->|]; [reflexivity | discriminate].
Qed.

Section EtaField.
Context {lib : PyLib}.

Lemma compute_eta_populated state inventory timed eta :
  compute_eta state inventory timed = Ok eta -> fully_populated eta.
Proof.
  unfold compute_eta. intros H.
  repeat (apply rbind_ok_inv in H as (? & _ & H)).
  injection H as <-. unfold fully_populated, eta_dict. eauto 10.
Qed.

Lemma status_eta_cases state inventory timed :
  status_eta state inventory timed = PDict [] \/
  fully_populated (status_eta state inventory timed).
Proof.
  unfold status_eta, try_pure. destruct timed as [|j rest]; [auto|].
  destruct (compute_eta _ _ _) as [eta|e] eqn:E; [|auto].
  right. eapply compute_eta_populated, E.
Qed.

(** Without a done job whose two timestamps parse, nothing is computed. *)
Lemma status_eta_empty state inventory jobs timed :
  filter_r done_with_times jobs = Ok timed ->
  (forall j, In j jobs -> ~ timed_done j) ->
  status_eta state inventory timed = PDict [].
Proof.
  intros Hfilter Hnone. unfold status_eta, try_pure.
  destruct timed as [|j rest]; [reflexivity|].
  destruct (filter_r_inv _ _ _ Hfilter j (or_introl eq_refl)) as [Hin Hdone].
  destruct (compute_eta _ _ _) as [eta|e] eqn:E; [|reflexivity].
  exfalso. apply (Hnone j Hin).
  unfold compute_eta in E. apply rbind_ok_inv in E as (times & Hmap & _).
  simpl in Hmap. apply rbind_ok_inv in Hmap as (t & Ht & _).
  apply job_seconds_inv in Ht as (s & u & ds & du & Hs & Hu & Hds & Hdu & _).
  split; [apply done_with_times_done, Hdone|].
  exists s, u, ds, du. auto.
Qed.

End EtaField.

Section StatusEta.
Context {lib : PyLib} (env : Settings).

Lemma select_jobs_filter d jv jobs test :
  dict_get "jobs" d = Some jv -> py_iter jv = Ok jobs ->
  select_jobs (PDict d) test = filter_r test jobs.
Proof.
  intros Hjobs Hiter. unfold select_jobs. unfold_monad. simpl.
  rewrite Hjobs, Hiter. reflexivity.
Qed.

(** C1, as the code has it: for a state document whose jobs all carry a
    status, a configuration file that can be read and a PID file on
    which [get_runner_pid] does not raise, [/api/status] answers 200,
    and the answer always has an [eta] field.  That field is either the
    empty object or an object with all six entries, never something in
    between; and it is the empty object whenever no job is done with
    both timestamps present and parseable. *)
Theorem status_eta_field (w : World) (d : dict pyval) (jv : pyval)
  (jobs : list pyval) (config : dict string) (r : option Z) :
  read_state env w = (w, Ok (PDict d)) ->
  dict_get "jobs" d = Some jv ->
  py_iter jv = Ok jobs ->
  jobs_have_status jobs ->
  read_config env w = (w, Ok config) ->
  get_runner_pid env (after_probes env w) = (after_probes env w, Ok r) ->
  exists response eta,
    do_GET env "/api/status" w
      = (after_probes env w, Ok (_json_response 200 response)) /\
    py_getitem response "eta" = Ok eta /\
    (eta = PDict [] \/ fully_populated eta) /\
    ((forall j, In j jobs -> ~ timed_done j) -> eta = PDict []).
Proof.
  intros Hread Hjobs Hiter Hstatus Hc Hpid.
  destruct (get_disk_usage_total env w config Hc) as [disks Hd].
  pose proof (fun test => select_jobs_filter d jv jobs test Hjobs Hiter) as Hsel.
  destruct (filter_r_total
              (status_in ["converting"; "transferring"; "queued"]) jobs)
    as [active Ha]; [intros; apply status_in_total, Hstatus; assumption|].
  destruct (filter_r_total (status_in ["done"]) jobs)
    as [all_done Hdone]; [intros; apply status_in_total, Hstatus; assumption|].
  destruct (filter_r_total (status_in ["failed"]) jobs)
    as [failed Hf]; [intros; apply status_in_total, Hstatus; assumption|].
  destruct (filter_r_total done_with_times jobs)
    as [timed Ht]; [intros; apply done_with_times_total, Hstatus; assumption|].
  set (eta := status_eta (PDict d)
                (dict_get_default "inventory" (PDict []) d) timed).
  eexists. exists eta. split; [|split; [|split]].
  - change (do_GET env "/api/status")
      with (response ← api_status env; mret (_json_response 200 response)).
    unfold api_status, eta_block. unfold_monad.
    rewrite Hread, Hc, Hd, !Hsel, Ha, Hdone, Hf, Ht. simpl py_get.
    cbv beta iota. rewrite Hpid. fold eta. reflexivity.
  - reflexivity.
  - apply status_eta_cases.
  - intros Hnone. eapply status_eta_empty; eassumption.
Qed.

End StatusEta.

(** C1 as stated fails: the state document has no job at all, and the
    answer of [/api/status] does have an [eta] field; it holds the empty
    object. *)
Lemma status_eta_present_counterexample :
  read_state default_settings Examples.no_jobs_world
    = (Examples.no_jobs_world, Ok Examples.no_jobs_doc) /\
  status_jobs Examples.no_jobs_doc = Ok [] /\
  exists response,
    do_GET default_settings "/api/status" Examples.no_jobs_world
      = (Examples.no_jobs_world, Ok (_json_response 200 response)) /\
    py_getitem response "eta" = Ok (PDict []) /\
    py_getitem response "eta" <> Raise KeyError.
Proof.
  split; [reflexivity|]. split; [reflexivity|].
  eexists. split; [reflexivity|]. split; [reflexivity | discriminate].
Qed.

Lemma status_eta_field_witness :
  exists response,
    do_GET default_settings "/api/status" Examples.untimed_world
      = (Examples.untimed_world, Ok (_json_response 200 response)) /\
    py_getitem response "eta" = Ok (PDict []).
Proof.
  assert (Hstatus : jobs_have_status Examples.untimed_jobs).
  { intros j [<- | [<- | []]]; eexists _, _; split; reflexivity. }
  assert (Hnone : forall j, In j Examples.untimed_jobs -> ~ timed_done j).
  { intros j [<- | [<- | []]] [Hdone (s & u & ds & du & Hs & _)];
      discriminate. }
  assert (Hread : read_state default_settings Examples.untimed_world
                  = (Examples.untimed_world,
                     Ok (PDict [("jobs", PList Examples.untimed_jobs)])))
    by reflexivity.
  assert (Hconf : read_config default_settings Examples.untimed_world
                  = (Examples.untimed_world, Ok [])) by reflexivity.
  assert (Hsame : after_probes default_settings Examples.untimed_world
                  = Examples.untimed_world) by reflexivity.
  assert (Hpid : get_runner_pid default_settings
                   (after_probes default_settings Examples.untimed_world)
                 = (after_probes default_settings Examples.untimed_world,
                    Ok None)) by reflexivity.
  destruct (status_eta_field default_settings Examples.untimed_world
              [("jobs", PList Examples.untimed_jobs)]
              (PList Examples.untimed_jobs) Examples.untimed_jobs [] None
              Hread eq_refl eq_refl Hstatus Hconf Hpid)
    as (response & eta & Hrun & Heta & _ & Hempty).
  exists response. split; [rewrite <- Hsame at 2; exact Hrun|].
  rewrite Heta, (Hempty Hnone). reflexivity.
Defined.
